(** * MongoDB HTTP bridge: a shallow embedding of [mongodb_bridge.py]

    The bridge is a Flask application: one decorator ([require_api_key]),
    one lazily created primary client ([get_client]) and eighteen route
    handlers.  The handlers are embedded as computations of a small
    state-and-exception monad over an explicit model of the MongoDB driver;
    Python strings are [string], JSON and BSON data are [value]. *)

From Stdlib Require Import String Ascii List ZArith Lia Bool Arith.
From Stdlib Require Import Sorting.Sorted Permutation.
Import ListNotations.

Set Warnings "-register-all".
Open Scope string_scope.

(** ** Python string primitives used by the handlers *)

Module PyStr.

(** [c in s] for a one-character string [c]. *)
Fixpoint contains (c : ascii) (s : string) : bool :=
  match s with
  | EmptyString => false
  | String a s' => if Ascii.eqb a c then true else contains c s'
  end.

(** [s.split(c)[0]]: the text before the first [c], all of [s] when
    [c] does not occur. *)
Fixpoint before (c : ascii) (s : string) : string :=
  match s with
  | EmptyString => EmptyString
  | String a s' => if Ascii.eqb a c then EmptyString else String a (before c s')
  end.

(** Second component of [s.split(c, 1)] when [c] occurs in [s]. *)
Fixpoint after (c : ascii) (s : string) : string :=
  match s with
  | EmptyString => EmptyString
  | String a s' => if Ascii.eqb a c then s' else after c s'
  end.

(** [s.replace(pat, "")] scans left to right and deletes every
    non-overlapping occurrence of [pat]; [skip] counts the characters of
    the occurrence being deleted that are still to be dropped. *)
Fixpoint delete_from (pat : string) (skip : nat) (s : string) : string :=
  match s with
  | EmptyString => EmptyString
  | String a s' =>
      match skip with
      | S k => delete_from pat k s'
      | O => if prefix pat s
             then delete_from pat (String.length pat - 1) s'
             else String a (delete_from pat 0 s')
      end
  end.

Definition delete_all (pat s : string) : string :=
  match pat with
  | EmptyString => s
  | _ => delete_from pat 0 s
  end.

(** [s[i:]] after the first occurrence of [pat], [None] when there is
    none (used only by the reference reading of a connection string). *)
Fixpoint after_first (pat : string) (s : string) : option string :=
  if prefix pat s then Some (substring (String.length pat) (String.length s) s)
  else match s with
       | EmptyString => None
       | String _ s' => after_first pat s'
       end.

(** The text before the last [c] ([s.rpartition(c)[0]]). *)
Fixpoint before_last (c : ascii) (s : string) : string :=
  match s with
  | EmptyString => EmptyString
  | String a s' =>
      if contains c s' then String a (before_last c s')
      else EmptyString
  end.

End PyStr.

(** ** Shard directory: the direct connection target of a shard

    The same eleven lines occur in [list_shards] (553-572),
    [list_available_databases] (627-641), [list_available_collections]
    (713-725), [query_shard] (787-803), [list_shard_databases] (867-881)
    and [list_shard_collections] (917-931); only the value of
    [serverSelectionTimeoutMS] differs (3000 in the fan-out handlers, 5000
    in the shard-scoped ones). *)

Module ShardDirectory.
Import PyStr.

(** [if "/" in host_str: rs_name, hosts = host_str.split("/", 1)
    else: hosts = host_str] *)
Definition hosts_of (host_str : string) : string :=
  if contains "/" host_str then after "/" host_str else host_str.

(** [first_host = hosts.split(",")[0]] *)
Definition first_host (host_str : string) : string :=
  before "," (hosts_of host_str).

(** [creds_part = main_uri.split("@")[0].replace("mongodb://", "")] *)
Definition creds_part (main_uri : string) : string :=
  delete_all "mongodb://" (before "@" main_uri).

Definition shard_uri (timeout main_uri host_str : string) : string :=
  let first_host := first_host host_str in
  let shard_uri :=
    "mongodb://" ++ first_host
      ++ "/?directConnection=true&serverSelectionTimeoutMS=" ++ timeout in
  if contains "@" main_uri then
    let creds_part := creds_part main_uri in
    "mongodb://" ++ creds_part ++ "@" ++ first_host
      ++ "/?directConnection=true&serverSelectionTimeoutMS=" ++ timeout
      ++ "&authSource=admin"
  else shard_uri.

(** *** The parts of the derivation, named *)

(** A host specification: an optional replica-set name, a slash, and a
    comma-separated list of [host:port] pairs. *)
Definition host_specification (rs_name : option string) (hosts : list string)
  : string :=
  match rs_name with
  | Some n => n ++ "/" ++ String.concat "," hosts
  | None => String.concat "," hosts
  end.

(** What the code places in front of the [@] of a shard connection
    string: [creds_part] of the primary connection string, when that
    string contains an [@].  This is the extraction of the code; the
    credentials a connection string carries are its [uri_userinfo]
    below. *)
Definition credentials_portion (main_uri : string) : option string :=
  if contains "@" main_uri then Some (creds_part main_uri) else None.

(** A direct (non-routed) connection string to a single host. *)
Definition direct_connection_string
    (timeout : string) (creds : option string) (host : string) : string :=
  match creds with
  | Some c =>
      "mongodb://" ++ c ++ "@" ++ host
        ++ "/?directConnection=true&serverSelectionTimeoutMS=" ++ timeout
        ++ "&authSource=admin"
  | None =>
      "mongodb://" ++ host
        ++ "/?directConnection=true&serverSelectionTimeoutMS=" ++ timeout
  end.

(** The user-information component of a connection string as the
    connection-string format defines it: what stands between the
    [scheme://] and the last [@] of the host part, the host part ending
    at the first [/]. *)
Definition uri_userinfo (uri : string) : option string :=
  match after_first "://" uri with
  | None => None
  | Some scheme_free =>
      let host_part := before "/" scheme_free in
      if contains "@" host_part then Some (before_last "@" host_part)
      else None
  end.

End ShardDirectory.

(** ** Python values

    Request bodies, result documents and response bodies are Python
    objects built from JSON: [None], booleans, integers, strings, lists
    and dictionaries (insertion-ordered, hence association lists).  [VExt]
    stands for the driver's extended types ([ObjectId], [datetime],
    [Regex], [Binary], ...), which the handlers never inspect.  Floating
    point numbers are left out. *)

Inductive value : Type :=
| VNone
| VBool (b : bool)
| VInt (n : Z)
| VStr (s : string)
| VList (l : list value)
| VDict (kvs : list (string * value))
| VExt (tag payload : string).

(** Exceptions, by the two classes the handlers tell apart:
    [except PyMongoError] and [except Exception]. *)
Inductive exn : Type :=
| PyMongoError (msg : string)
| OtherException (msg : string).

(** [str(e)] *)
Definition str_exn (e : exn) : string :=
  match e with PyMongoError m => m | OtherException m => m end.

Inductive res (A : Type) : Type :=
| Ok (a : A)
| Raise (e : exn).
Arguments Ok {A} a.
Arguments Raise {A} e.

Module Py.

(** Truth value of an object, as [if x:] and [not x] take it. *)
Definition truthy (v : value) : bool :=
  match v with
  | VNone => false
  | VBool b => b
  | VInt n => negb (Z.eqb n 0)
  | VStr s => negb (String.eqb s "")
  | VList l => match l with [] => false | _ => true end
  | VDict kvs => match kvs with [] => false | _ => true end
  | VExt _ _ => true
  end.

Definition type_name (v : value) : string :=
  match v with
  | VNone => "NoneType"
  | VBool _ => "bool"
  | VInt _ => "int"
  | VStr _ => "str"
  | VList _ => "list"
  | VDict _ => "dict"
  | VExt tag _ => tag
  end.

(** [d.get(k, default)] on a dictionary. *)
Fixpoint dict_get (kvs : list (string * value)) (k : string) (default : value)
  : value :=
  match kvs with
  | [] => default
  | (k', v) :: rest => if String.eqb k' k then v else dict_get rest k default
  end.

(** [d[k]] when [k in d]. *)
Fixpoint dict_lookup (kvs : list (string * value)) (k : string)
  : option value :=
  match kvs with
  | [] => None
  | (k', v) :: rest => if String.eqb k' k then Some v else dict_lookup rest k
  end.

(** [data.get(k, default)] on an arbitrary object: only dictionaries
    have the method, anything else raises [AttributeError]. *)
Definition get (data : value) (k : string) (default : value) : res value :=
  match data with
  | VDict kvs => Ok (dict_get kvs k default)
  | _ => Raise (OtherException
                  ("'" ++ type_name data ++ "' object has no attribute 'get'"))
  end.

(** [d[k]] on a dictionary: [KeyError] when the key is absent. *)
Fixpoint dict_item (kvs : list (string * value)) (k : string) : res value :=
  match kvs with
  | [] => Raise (OtherException ("'" ++ k ++ "'"))
  | (k', v) :: rest => if String.eqb k' k then Ok v else dict_item rest k
  end.

(** [isinstance(v, dict)] *)
Definition is_dict (v : value) : bool :=
  match v with VDict _ => true | _ => false end.

(** [len(l)] as a response integer. *)
Definition len {A} (l : list A) : value := VInt (Z.of_nat (List.length l)).

(** [x in l] for a list of strings. *)
Definition mem (x : string) (l : list string) : bool :=
  existsb (String.eqb x) l.

(** [sorted(l)] on strings: insertion by code-point order.  Every sorting
    algorithm returns the same list on distinct strings. *)
Fixpoint insert_sorted (x : string) (l : list string) : list string :=
  match l with
  | [] => [x]
  | y :: r => if String.leb x y then x :: l else y :: insert_sorted x r
  end.

Definition sorted (l : list string) : list string :=
  fold_right insert_sorted [] l.

(** [s.update(l)] on a set of strings, the set kept as a duplicate-free
    list. *)
Definition set_update (s l : list string) : list string :=
  fold_left (fun s x => if mem x s then s else (s ++ [x])%list) l s.

End Py.

(** ** The MongoDB deployment, as the driver shows it

    Every driver call either returns or raises; what it returns is the
    deployment's business.  [World] fixes the answers of the deployment
    for the duration of a request.  Answers are indexed by the connection
    string of the client the call goes through. *)

(** A document of [config.shards]. *)
Record shard : Type := {
  sh_id : string;                (* "_id" *)
  sh_host : option string;       (* "host", when present *)
  sh_state : option value        (* "state", when present *)
}.

(** What [update_one] / [update_many] return. *)
Record update_result : Type := {
  matched_count : Z;
  modified_count : Z;
  upserted_id : value
}.

Record World : Type := {
  (* MongoClient(uri) *)
  w_mongo_client : string -> res unit;
  (* client.close() *)
  w_close : string -> res unit;
  (* client.admin.command("ping") *)
  w_ping : string -> res unit;
  (* client[db] and client[db][coll]: name validation *)
  w_database : value -> res unit;
  w_collection : value -> value -> res unit;
  (* client.list_databases(), a list of dictionaries *)
  w_list_databases : string -> res (list (list (string * value)));
  w_list_database_names : string -> res (list string);
  w_list_collection_names : string -> value -> res (list string);
  (* database.command("collStats", coll), a dictionary *)
  w_coll_stats : string -> value -> string -> res (list (string * value));
  (* list(config.shards.find({})) and config.shards.find_one({"_id": id}) *)
  w_find_shards : string -> res (list shard);
  w_find_one_shard : string -> string -> res (option shard);
  (* collection.find(filter, projection): argument validation *)
  w_find_args : value -> value -> res unit;
  (* cursor.sort(sort): argument validation *)
  w_sort_args : value -> res unit;
  (* the documents a find selects, in the requested order, before skip
     and limit *)
  w_find_docs : string -> value -> value -> value -> value -> option value
                -> res (list value);
  w_aggregate : string -> value -> value -> value -> res (list value);
  (* the bulk write behind insert_many *)
  w_bulk_insert : string -> value -> value -> list value -> value -> res unit;
  (* ObjectId() for the document at a position of the batch *)
  w_new_object_id : nat -> value;
  w_update : string -> value -> value -> bool -> value -> value -> value
             -> res update_result;
  w_delete : string -> value -> value -> bool -> value -> res Z;
  w_command : string -> value -> value -> res value;
  w_estimated_document_count : string -> value -> value -> res Z;
  w_list_indexes : string -> value -> value -> res (list value);
  (* bson.json_util: the object hook of loads, the conversion of an
     extended type by dumps *)
  w_object_hook : list (string * value) -> res value;
  w_default : string -> string -> value
}.

(** A client object: its identity and the connection string it was
    built from. *)
Record conn : Type := { conn_id : nat; conn_uri : string }.

(** What the process does to the deployment, in order. *)
Inductive event : Type :=
| EvOpen (c : conn)
| EvClose (c : conn)
| EvCall (c : conn) (op : string).

(** The state of the process: the module-level [_client], a counter
    naming the next client object, and the trace. *)
Record state : Type := {
  st_client : option conn;
  st_next : nat;
  st_log : list event
}.

Definition initial_state : state :=
  {| st_client := None; st_next := 0; st_log := [] |}.

(** ** Computations that may raise *)

Definition M (A : Type) : Type := state -> res A * state.

Definition ret {A} (a : A) : M A := fun st => (Ok a, st).

Definition raise {A} (e : exn) : M A := fun st => (Raise e, st).

Definition bind {A B} (m : M A) (k : A -> M B) : M B :=
  fun st =>
    match m st with
    | (Ok a, st') => k a st'
    | (Raise e, st') => (Raise e, st')
    end.

Definition lift {A} (r : res A) : M A := fun st => (r, st).

Definition log_event (ev : event) : M unit :=
  fun st => (Ok tt, {| st_client := st_client st;
                       st_next := st_next st;
                       st_log := (st_log st ++ [ev])%list |}).

Declare Scope py_scope.
Delimit Scope py_scope with py.
Notation "x <- m ;; k" := (bind m (fun x => k))
  (at level 61, m at next level, right associativity) : py_scope.
Notation "m ;;; k" := (bind m (fun _ => k))
  (at level 61, right associativity) : py_scope.
Open Scope py_scope.

Fixpoint mapM {A B} (f : A -> M B) (l : list A) : M (list B) :=
  match l with
  | [] => ret []
  | x :: r => y <- f x ;; ys <- mapM f r ;; ret (y :: ys)
  end.

Fixpoint map_res {A B} (f : A -> res B) (l : list A) : res (list B) :=
  match l with
  | [] => Ok []
  | x :: r =>
      match f x with
      | Raise e => Raise e
      | Ok y => match map_res f r with
                | Raise e => Raise e
                | Ok ys => Ok (y :: ys)
                end
      end
  end.

(** ** HTTP requests and responses *)

(** What a handler reads of a request: the [X-API-Key] header and the
    outcome of [request.get_json()] (which raises on an undecodable
    body). *)
Record request : Type := {
  req_api_key : option string;
  req_json : res value
}.

(** A response is what [jsonify(...), status] builds, or, when an
    exception leaves the view function, Flask's generic 500 page, which is
    HTML and not JSON. *)
Inductive response : Type :=
| Json (status : Z) (body : value)
| InternalServerError (e : exn).

Definition handler : Type := state -> response * state.

Definition jsonify (body : value) : response := Json 200 body.

Definition error_body (msg : string) : value := VDict [("error", VStr msg)].

(** [try: body except PyMongoError as e: ... 500 except Exception as e:
    ... 400], the second message carrying the handler's prefix. *)
Definition try_except (prefix : string) (body : M response) : handler :=
  fun st =>
    match body st with
    | (Ok r, st') => (r, st')
    | (Raise (PyMongoError m), st') => (Json 500 (error_body m), st')
    | (Raise (OtherException m), st') =>
        (Json 400 (error_body (prefix ++ m)), st')
    end.

(** [try: body except PyMongoError as e: ... 500] alone: any other
    exception leaves the view function. *)
Definition try_except_pymongo (body : M response) : handler :=
  fun st =>
    match body st with
    | (Ok r, st') => (r, st')
    | (Raise (PyMongoError m), st') => (Json 500 (error_body m), st')
    | (Raise (OtherException m), st') =>
        (InternalServerError (OtherException m), st')
    end.

(** ** The driver *)

(** A collection object [client[db][coll]]. *)
Record collection : Type := {
  col_conn : conn;
  col_db : value;
  col_name : value
}.

(** A cursor: the find it stands for and the modifiers applied so far
    ([None]: the modifier was never called). *)
Record cursor : Type := {
  cur_collection : collection;
  cur_filter : value;
  cur_projection : value;
  cur_sort : option value;
  cur_skip : option Z;
  cur_limit : option Z
}.

Section Driver.
Variable w : World.

Definition MongoClient (uri : string) : M conn :=
  fun st =>
    match w_mongo_client w uri with
    | Raise e => (Raise e, st)
    | Ok _ =>
        let c := {| conn_id := st_next st; conn_uri := uri |} in
        (Ok c, {| st_client := st_client st;
                  st_next := S (st_next st);
                  st_log := (st_log st ++ [EvOpen c])%list |})
    end.

(** A call that goes to the deployment through client [c]. *)
Definition call {A} (c : conn) (op : string) (r : res A) : M A :=
  log_event (EvCall c op) ;;; lift r.

(** [c.close()]; [EvClose c] records that it was called. *)
Definition close (c : conn) : M unit :=
  log_event (EvClose c) ;;; lift (w_close w (conn_uri c)).

Definition ping (c : conn) : M unit :=
  call c "ping" (w_ping w (conn_uri c)).

Definition get_database (c : conn) (db : value) : M unit :=
  lift (w_database w db).

Definition get_collection (c : conn) (db coll : value) : M collection :=
  lift (w_database w db) ;;;
  lift (w_collection w db coll) ;;;
  ret {| col_conn := c; col_db := db; col_name := coll |}.

Definition list_database_names (c : conn) : M (list string) :=
  call c "list_database_names" (w_list_database_names w (conn_uri c)).

Definition list_collection_names (c : conn) (db : value) : M (list string) :=
  call c "list_collection_names" (w_list_collection_names w (conn_uri c) db).

Definition find (col : collection) (filter projection : value) : M cursor :=
  lift (w_find_args w filter projection) ;;;
  ret {| cur_collection := col; cur_filter := filter;
         cur_projection := projection;
         cur_sort := None; cur_skip := None; cur_limit := None |}.

Definition cursor_sort (cur : cursor) (sort : value) : M cursor :=
  lift (w_sort_args w sort) ;;;
  ret {| cur_collection := cur_collection cur; cur_filter := cur_filter cur;
         cur_projection := cur_projection cur;
         cur_sort := Some sort; cur_skip := cur_skip cur;
         cur_limit := cur_limit cur |}.

(** [isinstance(v, int)]: integers and, as in Python, booleans. *)
Definition as_int (v : value) : option Z :=
  match v with
  | VInt n => Some n
  | VBool b => Some (if b then 1 else 0)%Z
  | _ => None
  end.

(** [TypeError]: the driver names the class of the value it refuses. *)
Definition must_be_integer (option : string) (v : value) : exn :=
  OtherException
    (option ++ " must be an integer, not <class '" ++ Py.type_name v ++ "'>").

Definition cursor_skip (cur : cursor) (skip : value) : M cursor :=
  match as_int skip with
  | None => raise (must_be_integer "skip" skip)
  | Some n =>
      if (n <? 0)%Z then raise (OtherException "skip must be >= 0")
      else ret {| cur_collection := cur_collection cur;
                  cur_filter := cur_filter cur;
                  cur_projection := cur_projection cur;
                  cur_sort := cur_sort cur; cur_skip := Some n;
                  cur_limit := cur_limit cur |}
  end.

Definition cursor_limit (cur : cursor) (limit : value) : M cursor :=
  match as_int limit with
  | None => raise (must_be_integer "limit" limit)
  | Some n =>
      ret {| cur_collection := cur_collection cur;
             cur_filter := cur_filter cur;
             cur_projection := cur_projection cur;
             cur_sort := cur_sort cur; cur_skip := cur_skip cur;
             cur_limit := Some n |}
  end.

(** The server drops the skipped documents, then cuts at the limit; a
    limit of 0 is no limit and a negative limit counts as its absolute
    value. *)
Definition apply_skip (skip : option Z) (docs : list value) : list value :=
  match skip with
  | None => docs
  | Some n => skipn (Z.to_nat n) docs
  end.

Definition apply_limit (limit : option Z) (docs : list value) : list value :=
  match limit with
  | None => docs
  | Some n => if (n =? 0)%Z then docs else firstn (Z.to_nat (Z.abs n)) docs
  end.

(** The find command carries the skip and the absolute value of the
    limit as BSON integers, which hold eight bytes at most. *)
Definition int64_max : Z := 9223372036854775807.

Definition encodable (cur : cursor) : bool :=
  match cur_skip cur with
  | Some n => (n <=? int64_max)%Z
  | None => true
  end
  && match cur_limit cur with
     | Some n => (Z.abs n <=? int64_max)%Z
     | None => true
     end.

(** [list(cursor)]: the command is encoded, which raises [OverflowError]
    on an integer that does not fit, and only then sent.  The deployment
    selects the documents; skip and limit are applied to its selection as
    the server applies them.  The driver picks a server before it
    encodes: the [OverflowError] is the outcome on a deployment that can
    be reached.  A skip of [true] is taken here for the integer 1 it is to
    [cursor.skip], whereas the server refuses the boolean it receives.
    The properties below are stated for finds that can be encoded and
    whose skip is an integer proper. *)
Definition list_cursor (cur : cursor) : M (list value) :=
  let col := cur_collection cur in
  if encodable cur then
    docs <- call (col_conn col) "find"
              (w_find_docs w (conn_uri (col_conn col)) (col_db col)
                 (col_name col) (cur_filter cur) (cur_projection cur)
                 (cur_sort cur)) ;;
    ret (apply_limit (cur_limit cur) (apply_skip (cur_skip cur) docs))
  else raise (OtherException "MongoDB can only handle up to 8-byte ints").

Definition aggregate_pipeline (col : collection) (pipeline : value)
  : M (list value) :=
  call (col_conn col) "aggregate"
    (w_aggregate w (conn_uri (col_conn col)) (col_db col) (col_name col)
       pipeline).

(** The identifier [insert_many] reports for a document: its ["_id"],
    or a new [ObjectId] when it has none. *)
Definition inserted_id (i : nat) (doc : value) : value :=
  match doc with
  | VDict kvs =>
      match Py.dict_lookup kvs "_id" with
      | Some v => v
      | None => w_new_object_id w i
      end
  | _ => w_new_object_id w i
  end.

Fixpoint inserted_ids (i : nat) (docs : list value) : list value :=
  match docs with
  | [] => []
  | d :: r => inserted_id i d :: inserted_ids (S i) r
  end.

(** [collection.insert_many(documents, ordered=ordered)].  The driver
    wants a non-empty list of documents, collects one identifier per
    document and sends one bulk write.  The message of the [TypeError]
    for an entry that is no document is cut after its first words; the
    driver goes on to list the mapping types it accepts. *)
Definition insert_many (col : collection) (documents ordered : value)
  : M (list value) :=
  match documents with
  | VList (d :: ds) =>
      if forallb Py.is_dict (d :: ds) then
        call (col_conn col) "insert_many"
          (w_bulk_insert w (conn_uri (col_conn col)) (col_db col)
             (col_name col) (d :: ds) ordered) ;;;
        ret (inserted_ids 0 (d :: ds))
      else raise (OtherException "document must be an instance of dict")
  | VStr (String _ _) =>
      raise (OtherException "document must be an instance of dict")
  | _ => raise (OtherException "documents must be a non-empty list")
  end.

(** ** [parse_json_extended] and [serialize_response]

    [json_util.loads(json.dumps(data))] decodes the text of [data] with
    the extended-JSON object hook: lists are decoded element by element,
    and every dictionary, its values decoded first, is handed to the
    hook.  [json.loads(json_util.dumps(data))] converts lists and
    dictionaries element by element and every extended value by the
    library's conversion. *)
Fixpoint parse_json_extended (data : value) : res value :=
  match data with
  | VList l =>
      match (fix elems (l : list value) : res (list value) :=
               match l with
               | [] => Ok []
               | x :: r =>
                   match parse_json_extended x with
                   | Raise e => Raise e
                   | Ok x' => match elems r with
                              | Raise e => Raise e
                              | Ok r' => Ok (x' :: r')
                              end
                   end
               end) l with
      | Raise e => Raise e
      | Ok l' => Ok (VList l')
      end
  | VDict kvs =>
      match (fix pairs (kvs : list (string * value))
               : res (list (string * value)) :=
               match kvs with
               | [] => Ok []
               | (k, x) :: r =>
                   match parse_json_extended x with
                   | Raise e => Raise e
                   | Ok x' => match pairs r with
                              | Raise e => Raise e
                              | Ok r' => Ok ((k, x') :: r')
                              end
                   end
               end) kvs with
      | Raise e => Raise e
      | Ok kvs' => w_object_hook w kvs'
      end
  | _ => Ok data
  end.

Fixpoint serialize_response (data : value) : value :=
  match data with
  | VList l => VList (map serialize_response l)
  | VDict kvs =>
      VDict (map (fun kv => let '(k, x) := kv in (k, serialize_response x)) kvs)
  | VExt tag payload => w_default w tag payload
  | _ => data
  end.

End Driver.

(** ** The application *)

Section Bridge.
Variable w : World.
Variables MONGO_URI API_KEY : string.

Import Py.

(** [get_client]: the primary client is created on first use and kept
    in the module-level [_client].  The handlers are embedded as they run
    for one request at a time.  The server is started with
    [threaded=True] and [get_client] takes no lock: what two requests do
    to [_client] when they run together is outside this embedding, and
    the properties below speak of the run of a single request. *)
Definition get_client : M conn :=
  fun st =>
    match st_client st with
    | Some c => (Ok c, st)
    | None =>
        match MongoClient w MONGO_URI st with
        | (Ok c, st') =>
            (Ok c, {| st_client := Some c; st_next := st_next st';
                      st_log := st_log st' |})
        | (Raise e, st') => (Raise e, st')
        end
    end.

(** [require_api_key]: the decorator of every route but [/]. *)
Definition require_api_key (f : handler) (r : request) : handler :=
  fun st =>
    let provided_key := req_api_key r in
    match provided_key with
    | None =>
        (Json 401 (error_body "Unauthorized - Invalid or missing API key"), st)
    | Some k =>
        if negb (truthy (VStr k)) || negb (String.eqb k API_KEY) then
          (Json 401 (error_body "Unauthorized - Invalid or missing API key"),
           st)
        else f st
    end.

(** [index]: the health check. *)
Definition index : handler :=
  fun st =>
    (jsonify (VDict [
       ("service", VStr "MongoDB HTTP Bridge");
       ("status", VStr "running");
       ("auth_required", VBool true);
       ("endpoints", VList [
          VStr "GET  /databases";
          VStr "GET  /databases/available  (shard-aware)";
          VStr "GET  /databases/<db>/collections";
          VStr "GET  /databases/<db>/collections/available  (shard-aware)";
          VStr "GET  /shards  (list shards and status)";
          VStr "POST /query";
          VStr "POST /aggregate";
          VStr "POST /insert";
          VStr "POST /update";
          VStr "POST /delete";
          VStr "POST /command";
          VStr "GET  /collection/<db>/<collection>/count";
          VStr "GET  /collection/<db>/<collection>/indexes"])]), st).

(** One entry of a database listing (lines 150-154 and 887-891). *)
Definition database_entry (db_info : list (string * value)) : res value :=
  match dict_item db_info "name" with
  | Raise e => Raise e
  | Ok name =>
      Ok (VDict [("name", name);
                 ("sizeOnDisk", dict_get db_info "sizeOnDisk" VNone);
                 ("empty", dict_get db_info "empty" (VBool false))])
  end.

Definition list_databases : handler :=
  try_except_pymongo (
    client <- get_client ;;
    infos <- call client "list_databases"
               (w_list_databases w (conn_uri client)) ;;
    databases <- lift (map_res database_entry infos) ;;
    ret (jsonify (VDict [("databases", VList databases)]))).

(** The inner [try: stats = database.command("collStats", coll_name) ...
    except: ...append({"name": coll_name})]; [fields] are the statistics
    copied into the entry. *)
Definition collection_entry (fields : list string) (c : conn) (db : value)
    (coll_name : string) : M value :=
  fun st =>
    match call c "collStats" (w_coll_stats w (conn_uri c) db coll_name) st with
    | (Ok stats, st') =>
        (Ok (VDict (("name", VStr coll_name)
                      :: map (fun f => (f, dict_get stats f (VInt 0))) fields)),
         st')
    | (Raise _, st') => (Ok (VDict [("name", VStr coll_name)]), st')
    end.

Definition list_collections (db : string) : handler :=
  try_except_pymongo (
    client <- get_client ;;
    get_database w client (VStr db) ;;;
    collections <- list_collection_names w client (VStr db) ;;
    collection_info <-
      mapM (collection_entry ["count"; "size"; "avgObjSize"] client (VStr db))
        collections ;;
    ret (jsonify (VDict [("database", VStr db);
                         ("collections", VList collection_info)]))).

(** Lines 219-237 of [query] and 821-839 of [query_shard]: from the
    request body to the documents of the cursor. *)
Definition find_documents (col : collection) (data : value)
  : M (list value) :=
  raw_filter <- lift (get data "filter" (VDict [])) ;;
  filter_query <- lift (parse_json_extended w raw_filter) ;;
  projection <- lift (get data "projection" VNone) ;;
  sort <- lift (get data "sort" VNone) ;;
  limit <- lift (get data "limit" (VInt 100)) ;;
  skip <- lift (get data "skip" (VInt 0)) ;;
  cursor <- find w col filter_query projection ;;
  cursor <- (if truthy sort then cursor_sort w cursor sort else ret cursor) ;;
  cursor <- (if truthy skip then cursor_skip cursor skip else ret cursor) ;;
  cursor <- (if truthy limit then cursor_limit cursor limit else ret cursor) ;;
  list_cursor w cursor.

Definition query (r : request) : handler :=
  try_except "Query error: " (
    data <- lift (req_json r) ;;
    if negb (truthy data) then
      ret (Json 400 (error_body "Request body required"))
    else
      db_name <- lift (get data "database" VNone) ;;
      coll_name <- lift (get data "collection" VNone) ;;
      if negb (truthy db_name) || negb (truthy coll_name) then
        ret (Json 400 (error_body "database and collection are required"))
      else
        client <- get_client ;;
        collection <- get_collection w client db_name coll_name ;;
        documents <- find_documents collection data ;;
        ret (jsonify (VDict [
               ("database", db_name);
               ("collection", coll_name);
               ("count", len documents);
               ("documents", serialize_response w (VList documents))]))).

Definition aggregate (r : request) : handler :=
  try_except "Aggregation error: " (
    data <- lift (req_json r) ;;
    if negb (truthy data) then
      ret (Json 400 (error_body "Request body required"))
    else
      db_name <- lift (get data "database" VNone) ;;
      coll_name <- lift (get data "collection" VNone) ;;
      pipeline <- lift (get data "pipeline" (VList [])) ;;
      if negb (truthy db_name) || negb (truthy coll_name) then
        ret (Json 400 (error_body "database and collection are required"))
      else
        client <- get_client ;;
        collection <- get_collection w client db_name coll_name ;;
        pipeline <- lift (parse_json_extended w pipeline) ;;
        results <- aggregate_pipeline w collection pipeline ;;
        ret (jsonify (VDict [
               ("database", db_name);
               ("collection", coll_name);
               ("count", len results);
               ("results", serialize_response w (VList results))]))).

Definition insert (r : request) : handler :=
  try_except "Insert error: " (
    data <- lift (req_json r) ;;
    if negb (truthy data) then
      ret (Json 400 (error_body "Request body required"))
    else
      db_name <- lift (get data "database" VNone) ;;
      coll_name <- lift (get data "collection" VNone) ;;
      documents <- lift (get data "documents" VNone) ;;
      ordered <- lift (get data "ordered" (VBool true)) ;;
      if negb (truthy db_name) || negb (truthy coll_name)
         || negb (truthy documents) then
        ret (Json 400
               (error_body "database, collection, and documents are required"))
      else
        client <- get_client ;;
        collection <- get_collection w client db_name coll_name ;;
        let documents :=
          if is_dict documents then VList [documents] else documents in
        documents <- lift (parse_json_extended w documents) ;;
        inserted <- insert_many w collection documents ordered ;;
        ret (jsonify (VDict [
               ("database", db_name);
               ("collection", coll_name);
               ("inserted_count", len inserted);
               ("inserted_ids", serialize_response w (VList inserted))]))).

Definition update (r : request) : handler :=
  try_except "Update error: " (
    data <- lift (req_json r) ;;
    if negb (truthy data) then
      ret (Json 400 (error_body "Request body required"))
    else
      db_name <- lift (get data "database" VNone) ;;
      coll_name <- lift (get data "collection" VNone) ;;
      filter_query <- lift (get data "filter" (VDict [])) ;;
      update_doc <- lift (get data "update" VNone) ;;
      many <- lift (get data "many" (VBool false)) ;;
      upsert <- lift (get data "upsert" (VBool false)) ;;
      if negb (truthy db_name) || negb (truthy coll_name)
         || negb (truthy update_doc) then
        ret (Json 400
               (error_body "database, collection, and update are required"))
      else
        client <- get_client ;;
        collection <- get_collection w client db_name coll_name ;;
        filter_query <- lift (parse_json_extended w filter_query) ;;
        update_doc <- lift (parse_json_extended w update_doc) ;;
        result <- call client (if truthy many then "update_many" else "update_one")
                    (w_update w (conn_uri client) db_name coll_name
                       (truthy many) filter_query update_doc upsert) ;;
        ret (jsonify (VDict [
               ("database", db_name);
               ("collection", coll_name);
               ("matched_count", VInt (matched_count result));
               ("modified_count", VInt (modified_count result));
               ("upserted_id",
                 if truthy (upserted_id result)
                 then serialize_response w (upserted_id result)
                 else VNone)]))).

Definition delete (r : request) : handler :=
  try_except "Delete error: " (
    data <- lift (req_json r) ;;
    if negb (truthy data) then
      ret (Json 400 (error_body "Request body required"))
    else
      db_name <- lift (get data "database" VNone) ;;
      coll_name <- lift (get data "collection" VNone) ;;
      filter_query <- lift (get data "filter" (VDict [])) ;;
      many <- lift (get data "many" (VBool false)) ;;
      if negb (truthy db_name) || negb (truthy coll_name) then
        ret (Json 400 (error_body "database and collection are required"))
      else
        client <- get_client ;;
        collection <- get_collection w client db_name coll_name ;;
        filter_query <- lift (parse_json_extended w filter_query) ;;
        deleted <- call client (if truthy many then "delete_many" else "delete_one")
                     (w_delete w (conn_uri client) db_name coll_name
                        (truthy many) filter_query) ;;
        ret (jsonify (VDict [
               ("database", db_name);
               ("collection", coll_name);
               ("deleted_count", VInt deleted)]))).

Definition run_command (r : request) : handler :=
  try_except "Command error: " (
    data <- lift (req_json r) ;;
    if negb (truthy data) then
      ret (Json 400 (error_body "Request body required"))
    else
      db_name <- lift (get data "database" (VStr "admin")) ;;
      command <- lift (get data "command" VNone) ;;
      if negb (truthy command) then
        ret (Json 400 (error_body "command is required"))
      else
        client <- get_client ;;
        get_database w client db_name ;;;
        command <- lift (parse_json_extended w command) ;;
        result <- call client "command"
                    (w_command w (conn_uri client) db_name command) ;;
        ret (jsonify (VDict [
               ("database", db_name);
               ("result", serialize_response w result)]))).

Definition count_documents (db coll : string) : handler :=
  try_except_pymongo (
    client <- get_client ;;
    _ <- get_collection w client (VStr db) (VStr coll) ;;
    count <- call client "estimated_document_count"
               (w_estimated_document_count w (conn_uri client)
                  (VStr db) (VStr coll)) ;;
    ret (jsonify (VDict [("database", VStr db);
                         ("collection", VStr coll);
                         ("count", VInt count)]))).

Definition list_indexes (db coll : string) : handler :=
  try_except_pymongo (
    client <- get_client ;;
    _ <- get_collection w client (VStr db) (VStr coll) ;;
    indexes <- call client "list_indexes"
                 (w_list_indexes w (conn_uri client) (VStr db) (VStr coll)) ;;
    ret (jsonify (VDict [("database", VStr db);
                         ("collection", VStr coll);
                         ("indexes", serialize_response w (VList indexes))]))).

(** *** Shard-aware handlers *)

(** [shard.get("host", "")] *)
Definition host_str (sh : shard) : string :=
  match sh_host sh with Some h => h | None => "" end.

(** A computation that cannot raise. *)
Definition total {A} (f : state -> A * state) : M A :=
  fun st => let (a, st') := f st in (Ok a, st').

(** [for shard in shards: ...; shard_results.append(...)], the body
    having its own [try ... except Exception]: [probe] returns what the
    body leaves in the merged view and the entry it appends. *)
Fixpoint for_each_shard {A}
    (probe : shard -> A -> state -> (A * value) * state)
    (shards : list shard) (acc : A) (shard_results : list value)
    (st : state) : (A * list value) * state :=
  match shards with
  | [] => ((acc, shard_results), st)
  | sh :: rest =>
      let '((acc', entry), st') := probe sh acc st in
      for_each_shard probe rest acc' (shard_results ++ [entry])%list st'
  end.

(** [s["online"]] of an entry, as a truth value. *)
Definition is_online (entry : value) : bool :=
  match entry with
  | VDict kvs => truthy (dict_get kvs "online" VNone)
  | _ => false
  end.

(** [sum(1 for s in entries if s["online"])] *)
Definition count_online (entries : list value) : value :=
  len (filter is_online entries).

(** [sum(1 for s in entries if not s["online"])] *)
Definition count_offline (entries : list value) : value :=
  len (filter (fun s => negb (is_online s)) entries).

Definition shard_info (sh : shard) (online : bool) (error : value) : value :=
  VDict [("id", VStr (sh_id sh));
         ("host", match sh_host sh with Some h => VStr h | None => VNone end);
         ("state", match sh_state sh with Some v => v | None => VInt 1 end);
         ("online", VBool online);
         ("error", error)].

(** The body of the loop of [list_shards] (lines 543-584). *)
Definition test_shard (sh : shard) (_ : unit)
  : state -> (unit * value) * state :=
  fun st =>
    let shard_uri := ShardDirectory.shard_uri "3000" MONGO_URI (host_str sh) in
    match (test_client <- MongoClient w shard_uri ;;
           ping w test_client ;;;
           close w test_client) st with
    | (Ok _, st') => ((tt, shard_info sh true VNone), st')
    | (Raise e, st') => ((tt, shard_info sh false (VStr (str_exn e))), st')
    end.

Definition find_shards (client : conn) : M (list shard) :=
  call client "find" (w_find_shards w (conn_uri client)).

Definition find_one_shard (client : conn) (shard_id : string)
  : M (option shard) :=
  call client "find_one" (w_find_one_shard w (conn_uri client) shard_id).

Definition list_shards : handler :=
  try_except "Error: " (
    client <- get_client ;;
    shards <- find_shards client ;;
    r <- total (for_each_shard test_shard shards tt []) ;;
    let shard_status := snd r in
    ret (jsonify (VDict [
           ("total_shards", len shard_status);
           ("online_shards", count_online shard_status);
           ("offline_shards", count_offline shard_status);
           ("shards", serialize_response w (VList shard_status))]))).

(** [all_databases]: a dictionary from a database name to
    [{"name": name, "shards": [...]}], kept as the list of its items. *)
Definition dbdict : Type := list (string * list string).

Definition dict_has (name : string) (all : dbdict) : bool :=
  existsb (fun kv => String.eqb (fst kv) name) all.

(** [all[name]["shards"].append(shard_id)] *)
Fixpoint dict_append (name shard_id : string) (all : dbdict) : dbdict :=
  match all with
  | [] => []
  | (n, ids) :: rest =>
      if String.eqb n name then (n, (ids ++ [shard_id])%list) :: rest
      else (n, ids) :: dict_append name shard_id rest
  end.

(** Lines 652-654. *)
Definition merge_database (shard_id : string) (all : dbdict)
    (db_name : string) : dbdict :=
  let all :=
    if negb (dict_has db_name all) then (all ++ [(db_name, [])])%list
    else all in
  dict_append db_name shard_id all.

(** Lines 668-669. *)
Definition add_config_database (all : dbdict) (db_name : string) : dbdict :=
  if negb (dict_has db_name all) then (all ++ [(db_name, ["config"])])%list
  else all.

(** Lines 666-669. *)
Definition add_config_databases (all : dbdict) : dbdict :=
  fold_left add_config_database ["admin"; "config"; "local"] all.

(** [list(all_databases.values())] *)
Definition database_values (all : dbdict) : list value :=
  map (fun kv => VDict [("name", VStr (fst kv));
                        ("shards", VList (map VStr (snd kv)))]) all.

Definition databases_result (sh : shard) (online : bool)
    (dbs : list string) (error : value) : value :=
  VDict [("shard_id", VStr (sh_id sh));
         ("online", VBool online);
         ("databases", VList (map VStr dbs));
         ("error", error)].

(** The body of the loop of [list_available_databases] (616-662). *)
Definition probe_databases (sh : shard) (all_databases : dbdict)
  : state -> (dbdict * value) * state :=
  fun st =>
    let shard_uri := ShardDirectory.shard_uri "3000" MONGO_URI (host_str sh) in
    match MongoClient w shard_uri st with
    | (Raise e, st1) =>
        ((all_databases, databases_result sh false [] (VStr (str_exn e))), st1)
    | (Ok shard_client, st1) =>
        match list_database_names w shard_client st1 with
        | (Raise e, st2) =>
            ((all_databases,
              databases_result sh false [] (VStr (str_exn e))), st2)
        | (Ok dbs, st2) =>
            let all_databases :=
              fold_left (merge_database (sh_id sh)) dbs all_databases in
            match close w shard_client st2 with
            | (Raise e, st3) =>
                ((all_databases,
                  databases_result sh false dbs (VStr (str_exn e))), st3)
            | (Ok _, st3) =>
                ((all_databases, databases_result sh true dbs VNone), st3)
            end
        end
    end.

Definition list_available_databases : handler :=
  try_except "Error: " (
    client <- get_client ;;
    shards <- find_shards client ;;
    r <- total (for_each_shard probe_databases shards [] []) ;;
    let all_databases := add_config_databases (fst r) in
    let shard_results := snd r in
    ret (jsonify (VDict [
           ("total_shards", len shards);
           ("online_shards", count_online shard_results);
           ("databases", VList (database_values all_databases));
           ("shard_details", VList shard_results)]))).

Definition collections_result (sh : shard) (online : bool)
    (collections : list string) (error : value) : value :=
  VDict [("shard_id", VStr (sh_id sh));
         ("online", VBool online);
         ("collections", VList (map VStr collections));
         ("error", error)].

(** The body of the loop of [list_available_collections] (702-745);
    [all_collections] is a set. *)
Definition probe_collections (db : string) (sh : shard)
    (all_collections : list string)
  : state -> (list string * value) * state :=
  fun st =>
    let shard_uri := ShardDirectory.shard_uri "3000" MONGO_URI (host_str sh) in
    let failed e st' :=
      ((all_collections,
        collections_result sh false [] (VStr (str_exn e))), st') in
    match MongoClient w shard_uri st with
    | (Raise e, st1) => failed e st1
    | (Ok shard_client, st1) =>
        match list_database_names w shard_client st1 with
        | (Raise e, st2) => failed e st2
        | (Ok names, st2) =>
            if mem db names then
              match (get_database w shard_client (VStr db) ;;;
                     list_collection_names w shard_client (VStr db)) st2 with
              | (Raise e, st3) => failed e st3
              | (Ok collections, st3) =>
                  let all_collections :=
                    set_update all_collections collections in
                  match close w shard_client st3 with
                  | (Raise e, st4) =>
                      ((all_collections,
                        collections_result sh false collections
                          (VStr (str_exn e))), st4)
                  | (Ok _, st4) =>
                      ((all_collections,
                        collections_result sh true collections VNone), st4)
                  end
              end
            else
              match close w shard_client st2 with
              | (Raise e, st3) => failed e st3
              | (Ok _, st3) =>
                  ((all_collections, collections_result sh true [] VNone), st3)
              end
        end
    end.

Definition list_available_collections (db : string) : handler :=
  try_except "Error: " (
    client <- get_client ;;
    shards <- find_shards client ;;
    r <- total (for_each_shard (probe_collections db) shards [] []) ;;
    let all_collections := fst r in
    let shard_results := snd r in
    ret (jsonify (VDict [
           ("database", VStr db);
           ("collections", VList (map VStr (sorted all_collections)));
           ("total_shards", len shards);
           ("online_shards", count_online shard_results);
           ("shard_details", VList shard_results)]))).

Definition shard_not_found (shard_id : string) : response :=
  Json 404 (error_body ("Shard '" ++ shard_id ++ "' not found")).

Definition query_shard (shard_id : string) (r : request) : handler :=
  try_except "Query error: " (
    client <- get_client ;;
    found <- find_one_shard client shard_id ;;
    match found with
    | None => ret (shard_not_found shard_id)
    | Some sh =>
        let shard_uri :=
          ShardDirectory.shard_uri "5000" MONGO_URI (host_str sh) in
        shard_client <- MongoClient w shard_uri ;;
        data <- lift (req_json r) ;;
        if negb (truthy data) then
          ret (Json 400 (error_body "Request body required"))
        else
          db_name <- lift (get data "database" VNone) ;;
          coll_name <- lift (get data "collection" VNone) ;;
          if negb (truthy db_name) || negb (truthy coll_name) then
            ret (Json 400 (error_body "database and collection are required"))
          else
            collection <- get_collection w shard_client db_name coll_name ;;
            documents <- find_documents collection data ;;
            close w shard_client ;;;
            ret (jsonify (VDict [
                   ("shard", VStr shard_id);
                   ("database", db_name);
                   ("collection", coll_name);
                   ("count", len documents);
                   ("documents", serialize_response w (VList documents))]))
    end).

Definition list_shard_databases (shard_id : string) : handler :=
  try_except "Error: " (
    client <- get_client ;;
    found <- find_one_shard client shard_id ;;
    match found with
    | None => ret (shard_not_found shard_id)
    | Some sh =>
        let shard_uri :=
          ShardDirectory.shard_uri "5000" MONGO_URI (host_str sh) in
        shard_client <- MongoClient w shard_uri ;;
        infos <- call shard_client "list_databases"
                   (w_list_databases w (conn_uri shard_client)) ;;
        databases <- lift (map_res database_entry infos) ;;
        close w shard_client ;;;
        ret (jsonify (VDict [("shard", VStr shard_id);
                             ("databases", VList databases)]))
    end).

Definition list_shard_collections (shard_id db : string) : handler :=
  try_except "Error: " (
    client <- get_client ;;
    found <- find_one_shard client shard_id ;;
    match found with
    | None => ret (shard_not_found shard_id)
    | Some sh =>
        let shard_uri :=
          ShardDirectory.shard_uri "5000" MONGO_URI (host_str sh) in
        shard_client <- MongoClient w shard_uri ;;
        get_database w shard_client (VStr db) ;;;
        names <- list_collection_names w shard_client (VStr db) ;;
        collections <-
          mapM (collection_entry ["count"; "size"] shard_client (VStr db))
            names ;;
        close w shard_client ;;;
        ret (jsonify (VDict [("shard", VStr shard_id);
                             ("database", VStr db);
                             ("collections", VList collections)]))
    end).

Definition sample (r : request) : handler :=
  try_except "Sample error: " (
    data <- lift (req_json r) ;;
    if negb (truthy data) then
      ret (Json 400 (error_body "Request body required"))
    else
      db_name <- lift (get data "database" VNone) ;;
      coll_name <- lift (get data "collection" VNone) ;;
      size <- lift (get data "size" (VInt 5)) ;;
      if negb (truthy db_name) || negb (truthy coll_name) then
        ret (Json 400 (error_body "database and collection are required"))
      else
        client <- get_client ;;
        collection <- get_collection w client db_name coll_name ;;
        let pipeline := VList [VDict [("$sample", VDict [("size", size)])]] in
        results <- aggregate_pipeline w collection pipeline ;;
        ret (jsonify (VDict [
               ("database", db_name);
               ("collection", coll_name);
               ("count", len results);
               ("documents", serialize_response w (VList results))]))).

(** *** Routing *)

Inductive endpoint : Type :=
| Index                                         (* GET  / *)
| ListDatabases                                 (* GET  /databases *)
| ListCollections (db : string)                 (* GET  /databases/<db>/collections *)
| Query                                         (* POST /query *)
| Aggregate                                     (* POST /aggregate *)
| Insert                                        (* POST /insert *)
| Update                                        (* POST /update *)
| Delete                                        (* POST /delete *)
| RunCommand                                    (* POST /command *)
| CountDocuments (db coll : string)             (* GET  /collection/<db>/<collection>/count *)
| ListIndexes (db coll : string)                (* GET  /collection/<db>/<collection>/indexes *)
| ListShards                                    (* GET  /shards *)
| ListAvailableDatabases                        (* GET  /databases/available *)
| ListAvailableCollections (db : string)        (* GET  /databases/<db>/collections/available *)
| QueryShard (shard_id : string)                (* POST /shard/<shard_id>/query *)
| ListShardDatabases (shard_id : string)        (* GET  /shard/<shard_id>/databases *)
| ListShardCollections (shard_id db : string)   (* GET  /shard/<shard_id>/databases/<db>/collections *)
| Sample.                                       (* POST /sample *)

(** The view function of a route, decorator included. *)
Definition serve (ep : endpoint) (r : request) : handler :=
  match ep with
  | Index => index
  | ListDatabases => require_api_key list_databases r
  | ListCollections db => require_api_key (list_collections db) r
  | Query => require_api_key (query r) r
  | Aggregate => require_api_key (aggregate r) r
  | Insert => require_api_key (insert r) r
  | Update => require_api_key (update r) r
  | Delete => require_api_key (delete r) r
  | RunCommand => require_api_key (run_command r) r
  | CountDocuments db coll => require_api_key (count_documents db coll) r
  | ListIndexes db coll => require_api_key (list_indexes db coll) r
  | ListShards => require_api_key list_shards r
  | ListAvailableDatabases => require_api_key list_available_databases r
  | ListAvailableCollections db =>
      require_api_key (list_available_collections db) r
  | QueryShard shard_id => require_api_key (query_shard shard_id r) r
  | ListShardDatabases shard_id =>
      require_api_key (list_shard_databases shard_id) r
  | ListShardCollections shard_id db =>
      require_api_key (list_shard_collections shard_id db) r
  | Sample => require_api_key (sample r) r
  end.

End Bridge.


(** ** Reference readings of the specification *)

(** What a find request returns of the documents its filter selects:
    [skip] and [limit] take effect only when they are truthy, a limit
    keeping the first documents and a skip dropping them. *)
Definition returned_documents (skip limit : value) (selected : list value)
  : list value :=
  let rest :=
    if Py.truthy skip
    then match as_int skip with
         | Some n => skipn (Z.to_nat n) selected
         | None => selected
         end
    else selected in
  if Py.truthy limit
  then match as_int limit with
       | Some n => firstn (Z.to_nat (Z.abs n)) rest
       | None => rest
       end
  else rest.


(** The request body [kvs] describes a find that the driver accepts on
    the collection [db.coll] reached through [uri], and that selects the
    documents [selected]: the filter decodes, the arguments of [find] and
    [sort] are well-formed, a truthy [skip] is a non-negative integer and
    a truthy [limit] an integer, both within eight bytes.  The skip is an
    integer proper: [true] passes the check of [cursor.skip] but is sent
    as a boolean, which the server does not take for a number.  A limit
    is sent as its absolute value, an integer also for [true]. *)
Definition find_accepted (w : World) (uri : string) (db coll : value)
    (kvs : list (string * value)) (selected : list value) : Prop :=
  let projection := Py.dict_get kvs "projection" VNone in
  let sort := Py.dict_get kvs "sort" VNone in
  let skip := Py.dict_get kvs "skip" (VInt 0) in
  let limit := Py.dict_get kvs "limit" (VInt 100) in
  exists filter_query,
    parse_json_extended w (Py.dict_get kvs "filter" (VDict [])) = Ok filter_query
    /\ w_find_args w filter_query projection = Ok tt
    /\ (Py.truthy sort = true -> w_sort_args w sort = Ok tt)
    /\ (Py.truthy skip = true ->
        exists n, skip = VInt n /\ (0 <= n <= int64_max)%Z)
    /\ (Py.truthy limit = true ->
        exists n, as_int limit = Some n /\ (Z.abs n <= int64_max)%Z)
    /\ w_find_docs w uri db coll filter_query projection
         (if Py.truthy sort then Some sort else None) = Ok selected.


(** A response is a success, or a JSON object with an ["error"] field
    under one of the four error statuses. *)
Definition error_shaped (r : response) : Prop :=
  match r with
  | Json status body =>
      status = 200%Z
      \/ exists msg, body = error_body msg
                     /\ In status [400; 401; 404; 500]%Z
  | InternalServerError _ => False
  end.

(** Whatever a handler body returns without raising is a success or an
    error object. *)
Definition shaped (m : M response) : Prop :=
  forall st, match fst (m st) with
             | Ok r => error_shaped r
             | Raise _ => True
             end.

(** The routes whose view function has the clause [except Exception]
    (the health check has no [try] and raises nothing). *)
Definition catches_every_exception (ep : endpoint) : bool :=
  match ep with
  | ListDatabases | ListCollections _ | CountDocuments _ _ | ListIndexes _ _ =>
      false
  | _ => true
  end.

(** ** Probe outcomes as functions of the deployment

    What the probe of one shard comes to is decided by the deployment
    alone.  [Failed e]: the probe raised [e] before it had any data.
    [Listed names closed]: it obtained [names], and [closed] is the
    outcome of the [close()] that follows. *)

Inductive probe_outcome : Type :=
| Failed (e : exn)
| Listed (names : list string) (closed : res unit).

Definition failure (o : probe_outcome) : option exn :=
  match o with Failed e => Some e | Listed _ _ => None end.

Definition listed (o : probe_outcome) : option (list string) :=
  match o with Failed _ => None | Listed names _ => Some names end.

Section ProbeOutcomes.
Variable w : World.
Variable MONGO_URI : string.

(** The connection string of the fan-out probe of a shard. *)
Definition probe_uri (sh : shard) : string :=
  ShardDirectory.shard_uri "3000" MONGO_URI (host_str sh).

(** [GET /shards]: the first exception among building the client, the
    ping and the close. *)
Definition test_failure (sh : shard) : option exn :=
  match w_mongo_client w (probe_uri sh) with
  | Raise e => Some e
  | Ok _ =>
      match w_ping w (probe_uri sh) with
      | Raise e => Some e
      | Ok _ =>
          match w_close w (probe_uri sh) with
          | Raise e => Some e
          | Ok _ => None
          end
      end
  end.

(** [GET /databases/available] *)
Definition databases_outcome (sh : shard) : probe_outcome :=
  match w_mongo_client w (probe_uri sh) with
  | Raise e => Failed e
  | Ok _ =>
      match w_list_database_names w (probe_uri sh) with
      | Raise e => Failed e
      | Ok dbs => Listed dbs (w_close w (probe_uri sh))
      end
  end.

(** [GET /databases/<db>/collections/available] *)
Definition collections_outcome (db : string) (sh : shard) : probe_outcome :=
  match w_mongo_client w (probe_uri sh) with
  | Raise e => Failed e
  | Ok _ =>
      match w_list_database_names w (probe_uri sh) with
      | Raise e => Failed e
      | Ok names =>
          if Py.mem db names then
            match w_database w (VStr db) with
            | Raise e => Failed e
            | Ok _ =>
                match w_list_collection_names w (probe_uri sh) (VStr db) with
                | Raise e => Failed e
                | Ok collections => Listed collections (w_close w (probe_uri sh))
                end
            end
          else Listed [] (w_close w (probe_uri sh))
      end
  end.

(** The entry of [shard_details] for an outcome. *)
Definition detail (result : shard -> bool -> list string -> value -> value)
    (sh : shard) (o : probe_outcome) : value :=
  match o with
  | Failed e => result sh false [] (VStr (str_exn e))
  | Listed names (Raise e) => result sh false names (VStr (str_exn e))
  | Listed names (Ok _) => result sh true names VNone
  end.

(** The identifiers of the shards that list the database [name], in the
    order of the shard metadata. *)
Definition contributors (name : string) (shards : list shard) : list string :=
  flat_map
    (fun sh =>
       match listed (databases_outcome sh) with
       | Some dbs => map (fun _ => sh_id sh) (filter (String.eqb name) dbs)
       | None => []
       end)
    shards.

(** The entry of the merged database list for [name]: the shards that
    list it; failing any, the label ["config"] for the three databases of
    the config server; otherwise none. *)
Definition union_entry (name : string) (shards : list shard)
  : option (list string) :=
  match contributors name shards with
  | [] => if Py.mem name ["admin"; "config"; "local"] then Some ["config"]
          else None
  | ids => Some ids
  end.

End ProbeOutcomes.

(** [for_each_shard] for a loop body whose result does not depend on the
    state of the process. *)
Fixpoint fold_shards {A} (step : shard -> A -> A * value)
    (shards : list shard) (acc : A) (entries : list value) : A * list value :=
  match shards with
  | [] => (acc, entries)
  | sh :: rest =>
      let '(acc', entry) := step sh acc in
      fold_shards step rest acc' (entries ++ [entry])%list
  end.

(** [all[name]["shards"]] when [name in all]. *)
Fixpoint dbdict_lookup (name : string) (all : dbdict) : option (list string) :=
  match all with
  | [] => None
  | (n, ids) :: rest =>
      if String.eqb n name then Some ids else dbdict_lookup name rest
  end.


(** The loop bodies as functions of the deployment: what each leaves in
    the merged view, and the entry it appends. *)
Section Steps.
Variable w : World.
Variable MONGO_URI : string.

Definition test_step (sh : shard) (_ : unit) : unit * value :=
  (tt,
   match test_failure w MONGO_URI sh with
   | Some e => shard_info sh false (VStr (str_exn e))
   | None => shard_info sh true VNone
   end).

Definition databases_step (sh : shard) (all_databases : dbdict)
  : dbdict * value :=
  (match listed (databases_outcome w MONGO_URI sh) with
   | Some dbs => fold_left (merge_database (sh_id sh)) dbs all_databases
   | None => all_databases
   end,
   detail databases_result sh (databases_outcome w MONGO_URI sh)).

Definition collections_step (db : string) (sh : shard)
    (all_collections : list string) : list string * value :=
  (match listed (collections_outcome w MONGO_URI db sh) with
   | Some collections => Py.set_update all_collections collections
   | None => all_collections
   end,
   detail collections_result sh (collections_outcome w MONGO_URI db sh)).

(** The merged views, once every shard is probed. *)
Definition merged_databases (shards : list shard) : dbdict :=
  add_config_databases
    (fold_left (fun acc sh => fst (databases_step sh acc)) shards []).

Definition merged_collections (db : string) (shards : list shard)
  : list string :=
  Py.sorted
    (fold_left (fun acc sh => fst (collections_step db sh acc)) shards []).

End Steps.

Definition ids_of (o : option (list string)) : list string :=
  match o with Some ids => ids | None => [] end.

(** Appending contributions [l] to an optional entry. *)
Definition extend (o : option (list string)) (l : list string)
  : option (list string) :=
  match l with
  | [] => o
  | _ => Some (ids_of o ++ l)%list
  end.

(** [a <= b] on strings, by code points. *)
Definition str_le (a b : string) : Prop := String.leb a b = true.


(** ** Sample deployments

    Concrete deployments on which the statements below are instantiated.
    In [deployment], [connect] is the outcome of building a client from a
    connection string, [reach] the outcome of the first call that has to
    reach the server behind it, [dbs] the databases that server holds;
    [shards] is the shard metadata and [docs] what every find selects.
    Every other call succeeds. *)

Definition deployment
    (connect reach : string -> res unit)
    (dbs : string -> list string)
    (shards : list shard)
    (docs : list value) : World :=
  {| w_mongo_client := connect;
     w_close := fun _ => Ok tt;
     w_ping := reach;
     w_database := fun _ => Ok tt;
     w_collection := fun _ _ => Ok tt;
     w_list_databases := fun _ => Ok [];
     w_list_database_names :=
       fun uri => match reach uri with
                  | Ok _ => Ok (dbs uri)
                  | Raise e => Raise e
                  end;
     w_list_collection_names := fun _ _ => Ok ["users"; "orders"];
     w_coll_stats := fun _ _ _ => Ok [];
     w_find_shards := fun _ => Ok shards;
     w_find_one_shard :=
       fun _ shard_id =>
         Ok (List.find (fun sh => String.eqb (sh_id sh) shard_id) shards);
     w_find_args := fun _ _ => Ok tt;
     w_sort_args := fun _ => Ok tt;
     w_find_docs :=
       fun uri _ _ _ _ _ => match reach uri with
                            | Ok _ => Ok docs
                            | Raise e => Raise e
                            end;
     w_aggregate := fun _ _ _ _ => Ok [];
     w_bulk_insert := fun _ _ _ _ _ => Ok tt;
     w_new_object_id := fun i => VExt "ObjectId" "";
     w_update :=
       fun _ _ _ _ _ _ _ =>
         Ok {| matched_count := 0; modified_count := 0; upserted_id := VNone |};
     w_delete := fun _ _ _ _ _ => Ok 0%Z;
     w_command := fun _ _ _ => Ok VNone;
     w_estimated_document_count := fun _ _ _ => Ok 0%Z;
     w_list_indexes := fun _ _ _ => Ok [];
     w_object_hook := fun kvs => Ok (VDict kvs);
     w_default := fun _ payload => VStr payload |}.

Definition primary_uri : string := "mongodb://mongos:27017".

Definition shard_A : shard :=
  {| sh_id := "A"; sh_host := Some "rsA/a1:27018,a2:27018";
     sh_state := Some (VInt 1) |}.

Definition shard_B : shard :=
  {| sh_id := "B"; sh_host := Some "rsB/b1:27018"; sh_state := None |}.

Definition uri_A : string :=
  "mongodb://a1:27018/?directConnection=true&serverSelectionTimeoutMS=3000".

Definition uri_B : string :=
  "mongodb://b1:27018/?directConnection=true&serverSelectionTimeoutMS=3000".

(** Shard A answers and holds the database [app]; the server of shard B
    does not answer: a client for it can be built, and its first call
    times out. *)
Definition one_shard_down : World :=
  deployment
    (fun _ => Ok tt)
    (fun uri => if String.eqb uri uri_B
                then Raise (PyMongoError "b1:27018: timed out") else Ok tt)
    (fun uri => if String.eqb uri uri_A then ["app"] else [])
    [shard_A; shard_B]
    [].

(** Every server answers; every find selects five documents. *)
Definition five_documents : World :=
  deployment (fun _ => Ok tt) (fun _ => Ok tt) (fun _ => ["app"])
    [shard_A; shard_B]
    [VDict [("n", VInt 1)]; VDict [("n", VInt 2)]; VDict [("n", VInt 3)];
     VDict [("n", VInt 4)]; VDict [("n", VInt 5)]].

(** A primary connection string whose port is out of range: the driver
    refuses it with a [ValueError], which is not a [PyMongoError] (the
    text of the message is the driver's). *)
Definition bad_port_uri : string := "mongodb://localhost:99999".

Definition misconfigured : World :=
  deployment
    (fun uri =>
       if String.eqb uri bad_port_uri
       then Raise (OtherException
                     "Port must be an integer between 0 and 65535")
       else Ok tt)
    (fun _ => Ok tt) (fun _ => []) [] [].

(** The primary client and the state of the process once it exists. *)
Definition primary_client : conn :=
  {| conn_id := 0; conn_uri := primary_uri |}.

Definition connected : state :=
  {| st_client := Some primary_client; st_next := 1;
     st_log := [EvOpen primary_client] |}.

Definition with_key (key : option string) (body : value) : request :=
  {| req_api_key := key; req_json := Ok body |}.


(** ** Readings used by the further properties *)

(** The request carries the configured key, and that key is not empty. *)
Definition authorized (API_KEY : string) (r : request) : Prop :=
  req_api_key r = Some API_KEY /\ API_KEY <> "".

(** The routes that read a JSON body first, with the prefix their
    [except Exception] clause puts in front of the message. *)
Definition body_prefix (ep : endpoint) : option string :=
  match ep with
  | Query => Some "Query error: "
  | Aggregate => Some "Aggregation error: "
  | Insert => Some "Insert error: "
  | Update => Some "Update error: "
  | Delete => Some "Delete error: "
  | RunCommand => Some "Command error: "
  | Sample => Some "Sample error: "
  | _ => None
  end.

(** The fields such a route requires, with the message of its refusal. *)
Definition required_fields (ep : endpoint) : option (list string * string) :=
  match ep with
  | Query | Aggregate | Delete | Sample =>
      Some (["database"; "collection"], "database and collection are required")
  | Insert =>
      Some (["database"; "collection"; "documents"],
            "database, collection, and documents are required")
  | Update =>
      Some (["database"; "collection"; "update"],
            "database, collection, and update are required")
  | RunCommand => Some (["command"], "command is required")
  | _ => None
  end.

(** The routes whose view function starts with [get_client()]. *)
Definition connects_first (ep : endpoint) : bool :=
  match ep with
  | ListDatabases | ListCollections _ | CountDocuments _ _ | ListIndexes _ _
  | ListShards | ListAvailableDatabases | ListAvailableCollections _
  | QueryShard _ | ListShardDatabases _ | ListShardCollections _ _ => true
  | _ => false
  end.

(** The shard-scoped routes, with the shard they name. *)
Definition named_shard (ep : endpoint) : option string :=
  match ep with
  | QueryShard shard_id | ListShardDatabases shard_id
  | ListShardCollections shard_id _ => Some shard_id
  | _ => None
  end.

(** A value without extended types, at any depth. *)
Fixpoint plain (v : value) : bool :=
  match v with
  | VList l => forallb plain l
  | VDict kvs => forallb (fun kv => plain (snd kv)) kvs
  | VExt _ _ => false
  | _ => true
  end.

(** The probe ran to its end: data obtained and client closed. *)
Definition completed (o : probe_outcome) : bool :=
  match o with
  | Listed _ (Ok _) => true
  | _ => false
  end.

(** ["name"] of an entry of a listing. *)
Definition entry_name (entry : value) : value :=
  match entry with
  | VDict kvs => Py.dict_get kvs "name" VNone
  | _ => VNone
  end.

(** The primary connection string is refused with a [PyMongoError]. *)
Definition primary_refused : World :=
  deployment (fun _ => Raise (PyMongoError "connection refused"))
    (fun _ => Ok tt) (fun _ => []) [] [].

(** The probe of [GET /shards] ran to its end. *)
Definition tested (w : World) (MONGO_URI : string) (sh : shard) : bool :=
  match test_failure w MONGO_URI sh with
  | None => true
  | Some _ => false
  end.

(** The events by which a client is built and [close()] is called. *)
Definition is_open (ev : event) : bool :=
  match ev with EvOpen _ => true | _ => false end.

Definition is_close (ev : event) : bool :=
  match ev with EvClose _ => true | _ => false end.

(** A client can be built for the shard; the shard then answers the
    ping. *)
Definition connectable (w : World) (MONGO_URI : string) (sh : shard) : bool :=
  match w_mongo_client w (probe_uri MONGO_URI sh) with
  | Ok _ => true
  | Raise _ => false
  end.

Definition answers_ping (w : World) (MONGO_URI : string) (sh : shard) : bool :=
  connectable w MONGO_URI sh
  && match w_ping w (probe_uri MONGO_URI sh) with
     | Ok _ => true
     | Raise _ => false
     end.

(** The request body [kvs] describes a find whose arguments the driver
    accepts and can encode, [filter_query] being the decoded filter: what
    [find_accepted] asks, short of the outcome of the find itself. *)
Definition find_well_formed (w : World) (kvs : list (string * value))
    (filter_query : value) : Prop :=
  let sort := Py.dict_get kvs "sort" VNone in
  let skip := Py.dict_get kvs "skip" (VInt 0) in
  let limit := Py.dict_get kvs "limit" (VInt 100) in
  parse_json_extended w (Py.dict_get kvs "filter" (VDict [])) = Ok filter_query
  /\ w_find_args w filter_query (Py.dict_get kvs "projection" VNone) = Ok tt
  /\ (Py.truthy sort = true -> w_sort_args w sort = Ok tt)
  /\ (Py.truthy skip = true ->
      exists n, skip = VInt n /\ (0 <= n <= int64_max)%Z)
  /\ (Py.truthy limit = true ->
      exists n, as_int limit = Some n /\ (Z.abs n <= int64_max)%Z).

(** Every server answers but cannot run a find. *)
Definition failing_find : World :=
  {| w_mongo_client := fun _ => Ok tt;
     w_close := fun _ => Ok tt;
     w_ping := fun _ => Ok tt;
     w_database := fun _ => Ok tt;
     w_collection := fun _ _ => Ok tt;
     w_list_databases := fun _ => Ok [];
     w_list_database_names := fun _ => Ok [];
     w_list_collection_names := fun _ _ => Ok [];
     w_coll_stats := fun _ _ _ => Ok [];
     w_find_shards := fun _ => Ok [];
     w_find_one_shard := fun _ _ => Ok None;
     w_find_args := fun _ _ => Ok tt;
     w_sort_args := fun _ => Ok tt;
     w_find_docs :=
       fun _ _ _ _ _ _ => Raise (PyMongoError "operation exceeded time limit");
     w_aggregate := fun _ _ _ _ => Ok [];
     w_bulk_insert := fun _ _ _ _ _ => Ok tt;
     w_new_object_id := fun i => VExt "ObjectId" "";
     w_update :=
       fun _ _ _ _ _ _ _ =>
         Ok {| matched_count := 0; modified_count := 0; upserted_id := VNone |};
     w_delete := fun _ _ _ _ _ => Ok 0%Z;
     w_command := fun _ _ _ => Ok VNone;
     w_estimated_document_count := fun _ _ _ => Ok 0%Z;
     w_list_indexes := fun _ _ _ => Ok [];
     w_object_hook := fun kvs => Ok (VDict kvs);
     w_default := fun _ payload => VStr payload |}.


(** * Properties *)

(** ** Splitting strings *)

Section PyStrFacts.
Import PyStr.

Lemma contains_app_char (c : ascii) (a b : string) :
  contains c (a ++ String c b) = true.
Proof.
  induction a as [|x a IH]; simpl.
  - now rewrite Ascii.eqb_refl.
  - destruct (Ascii.eqb x c); auto.
Qed.

Lemma before_app_char (c : ascii) (a b : string) :
  contains c a = false -> before c (a ++ String c b) = a.
Proof.
  induction a as [|x a IH]; simpl; intros H.
  - now rewrite Ascii.eqb_refl.
  - destruct (Ascii.eqb x c); [discriminate|]. now rewrite IH.
Qed.

Lemma after_app_char (c : ascii) (a b : string) :
  contains c a = false -> after c (a ++ String c b) = b.
Proof.
  induction a as [|x a IH]; simpl; intros H.
  - now rewrite Ascii.eqb_refl.
  - destruct (Ascii.eqb x c); [discriminate|]. now apply IH.
Qed.

Lemma before_absent (c : ascii) (a : string) :
  contains c a = false -> before c a = a.
Proof.
  induction a as [|x a IH]; simpl; intros H; auto.
  destruct (Ascii.eqb x c); [discriminate|]. now rewrite IH.
Qed.

Lemma before_concat (c : ascii) (h : string) (others : list string) :
  contains c h = false ->
  before c (String.concat (String c "") (h :: others)) = h.
Proof.
  intros H. destruct others as [|o os].
  - simpl. now apply before_absent.
  - change (String.concat (String c "") (h :: o :: os))
      with (h ++ String c (String.concat (String c "") (o :: os))).
    now apply before_app_char.
Qed.

Lemma prefix_app (p s : string) :
  prefix p s = true -> exists t, s = p ++ t.
Proof.
  revert s. induction p as [|a p IH]; intros s H.
  - now exists s.
  - destruct s as [|b s]; simpl in H; [discriminate|].
    destruct (ascii_dec a b) as [->|]; [|discriminate].
    destruct (IH _ H) as [t ->]. now exists t.
Qed.

Lemma delete_from_no_slash (s : string) :
  contains "/" s = false -> delete_from "mongodb://" 0 s = s.
Proof.
  induction s as [|a s IH]; intros H; [reflexivity|].
  cbn [delete_from].
  destruct (prefix "mongodb://" (String a s)) eqn:P.
  - apply prefix_app in P. destruct P as [t E]. rewrite E in H.
    simpl in H. discriminate.
  - simpl in H. destruct (Ascii.eqb a "/"); [discriminate|].
    now rewrite IH.
Qed.

End PyStrFacts.

(** ** The shard connection target (C3, C4) *)

Section ShardDirectoryFacts.
Import PyStr ShardDirectory.

Lemma first_host_with_replica_set (rs_name h : string) (others : list string) :
  contains "/" rs_name = false ->
  contains "," h = false ->
  first_host (host_specification (Some rs_name) (h :: others)) = h.
Proof.
  intros Hrs Hh. unfold first_host, hosts_of, host_specification.
  change (rs_name ++ "/" ++ String.concat "," (h :: others))
    with (rs_name ++ String "/" (String.concat "," (h :: others))).
  rewrite contains_app_char, after_app_char by assumption.
  now apply before_concat.
Qed.

Lemma first_host_without_replica_set (h : string) (others : list string) :
  contains "/" (String.concat "," (h :: others)) = false ->
  contains "," h = false ->
  first_host (host_specification None (h :: others)) = h.
Proof.
  intros Hno Hh. unfold first_host, hosts_of, host_specification.
  rewrite Hno. now apply before_concat.
Qed.

(** On a connection string of the shape [mongodb://creds@rest], the
    extracted portion is [creds] itself. *)
Lemma credentials_portion_standard (creds rest : string) :
  contains "@" creds = false ->
  contains "/" creds = false ->
  credentials_portion ("mongodb://" ++ creds ++ "@" ++ rest) = Some creds.
Proof.
  intros Hat Hsl. unfold credentials_portion, creds_part.
  change ("mongodb://" ++ creds ++ "@" ++ rest)
    with ("mongodb://" ++ (creds ++ String "@" rest)).
  assert (C : contains "@" ("mongodb://" ++ (creds ++ String "@" rest)) = true).
  { simpl. apply contains_app_char. }
  rewrite C.
  assert (B : before "@" ("mongodb://" ++ (creds ++ String "@" rest))
              = "mongodb://" ++ creds).
  { simpl. now rewrite before_app_char. }
  rewrite B. f_equal.
  unfold delete_all. cbn.
  replace (prefix "" creds) with true by (now destruct creds).
  now apply delete_from_no_slash.
Qed.

(** The host the code selects and the string it forms: the replica-set
    name in front of the first slash of the host specification is
    discarded, the first entry of the comma-separated host list is taken,
    and the shard connection string is the direct connection string to
    that host, carrying what the code extracts from the primary connection
    string ([credentials_portion]).  A host specification without
    replica-set name is treated the same way, nothing being discarded.
    [timeout] is 3000 in the fan-out handlers and 5000 in the shard-scoped
    ones. *)
Lemma shard_uri_direct
    (timeout main_uri : string) (rs_name : option string)
    (h : string) (others : list string) :
  contains "," h = false ->
  match rs_name with
  | Some n => contains "/" n = false
  | None => contains "/" (String.concat "," (h :: others)) = false
  end ->
  first_host (host_specification rs_name (h :: others)) = h /\
  shard_uri timeout main_uri (host_specification rs_name (h :: others))
  = direct_connection_string timeout (credentials_portion main_uri) h.
Proof.
  intros Hh Hrs.
  assert (F : first_host (host_specification rs_name (h :: others)) = h).
  { destruct rs_name as [n|].
    - now apply first_host_with_replica_set.
    - now apply first_host_without_replica_set. }
  split; [exact F|].
  unfold shard_uri, direct_connection_string, credentials_portion.
  rewrite F. now destruct (contains "@" main_uri).
Qed.

(** C3, at a primary connection string in the seed-list scheme and a
    replica set of two hosts.  The replica-set name is discarded and the
    first host [h1:27018] selected, as the claim says; but the string
    derived for the shard is not the direct connection string to that
    host with the credentials [user:pw] of the primary connection string:
    [mongodb+srv://user:pw] stands where the credentials belong, because
    only the prefix [mongodb://] is removed from what precedes the first
    [@]. *)
Theorem shard_uri_srv_derivation :
  let main_uri := "mongodb+srv://user:pw@cluster0.example.net" in
  let host_str := host_specification (Some "rs0") ["h1:27018"; "h2:27018"] in
  first_host host_str = "h1:27018" /\
  uri_userinfo main_uri = Some "user:pw" /\
  shard_uri "5000" main_uri host_str
  = "mongodb://mongodb+srv://user:pw@h1:27018/?directConnection=true&serverSelectionTimeoutMS=5000&authSource=admin" /\
  direct_connection_string "5000" (uri_userinfo main_uri) "h1:27018"
  = "mongodb://user:pw@h1:27018/?directConnection=true&serverSelectionTimeoutMS=5000&authSource=admin" /\
  shard_uri "5000" main_uri host_str
  <> direct_connection_string "5000" (uri_userinfo main_uri)
       (first_host host_str).
Proof.
  cbv zeta. repeat split; try reflexivity. vm_compute. discriminate.
Qed.

(** C4, at a primary connection string in the seed-list scheme.  The
    credentials of [mongodb+srv://user:pw@cluster0.example.net] are
    [user:pw]; the text placed in front of the [@] of the shard connection
    string is [mongodb+srv://user:pw], because only the prefix
    [mongodb://] is removed from what precedes the first [@]. *)
Theorem shard_uri_srv_credentials :
  let main_uri := "mongodb+srv://user:pw@cluster0.example.net" in
  uri_userinfo main_uri = Some "user:pw" /\
  credentials_portion main_uri = Some "mongodb+srv://user:pw" /\
  shard_uri "3000" main_uri "rs0/h1:27018,h2:27018"
  = "mongodb://mongodb+srv://user:pw@h1:27018/?directConnection=true&serverSelectionTimeoutMS=3000&authSource=admin" /\
  uri_userinfo (shard_uri "3000" main_uri "rs0/h1:27018,h2:27018")
  <> Some "user:pw".
Proof.
  cbv zeta. repeat split; try reflexivity. vm_compute. discriminate.
Qed.

(** Without an [@] in the primary connection string the shard connection
    string is the bare direct one: nothing stands between the scheme and
    the host. *)
Lemma shard_uri_without_credentials (timeout main_uri host_str : string) :
  contains "@" main_uri = false ->
  shard_uri timeout main_uri host_str
  = "mongodb://" ++ first_host host_str
      ++ "/?directConnection=true&serverSelectionTimeoutMS=" ++ timeout.
Proof.
  intros H. unfold shard_uri. now rewrite H.
Qed.

End ShardDirectoryFacts.

(** ** Authentication (C6) *)

Section AuthenticationFacts.
Variable w : World.
Variables MONGO_URI API_KEY : string.

(** C6.  On every route other than the health check, a request whose
    [X-API-Key] header is missing or differs from the configured key is
    answered with status 401 and the one unauthorized body, whatever the
    route, and the state of the process is untouched: no client is
    created and no call reaches the deployment.  The health check answers
    200 whatever the header. *)
Theorem unauthorized_401 (ep : endpoint) (r : request) (st : state) :
  (ep <> Index ->
   req_api_key r = None \/ req_api_key r <> Some API_KEY ->
   serve w MONGO_URI API_KEY ep r st
   = (Json 401 (error_body "Unauthorized - Invalid or missing API key"), st))
  /\
  (ep = Index ->
   exists body, serve w MONGO_URI API_KEY ep r st = (Json 200 body, st)).
Proof.
  split.
  - intros Hep Hkey.
    assert (G : forall f, require_api_key API_KEY f r st
                = (Json 401 (error_body "Unauthorized - Invalid or missing API key"),
                   st)).
    { intros f. unfold require_api_key.
      destruct (req_api_key r) as [k|] eqn:K; [|reflexivity].
      destruct Hkey as [Hkey|Hkey]; [discriminate|].
      destruct (String.eqb k API_KEY) eqn:E.
      - apply String.eqb_eq in E. subst k. now elim Hkey.
      - now rewrite orb_true_r. }
    destruct ep; try (now elim Hep); apply G.
  - intros ->. eexists. reflexivity.
Qed.

End AuthenticationFacts.

(** A wrong key on [POST /query]. *)
Lemma unauthorized_401_witness :
  serve five_documents primary_uri "secret" Query
    (with_key (Some "guess") (VDict [("database", VStr "d")])) initial_state
  = (Json 401 (error_body "Unauthorized - Invalid or missing API key"),
     initial_state).
Proof.
  apply (unauthorized_401 five_documents primary_uri "secret" Query).
  - discriminate.
  - right. discriminate.
Defined.

(** ** Find requests (C10) *)

Section FindFacts.
Variable w : World.
Variable MONGO_URI : string.
Import Py.

Lemma truthy_as_int_nonzero (v : value) (n : Z) :
  truthy v = true -> as_int v = Some n -> n <> 0%Z.
Proof.
  destruct v; simpl; try discriminate.
  - intros -> [= <-]. discriminate.
  - intros H [= <-]. now apply Z.eqb_neq, negb_true_iff.
Qed.

Lemma find_documents_returns (col : collection) kvs selected (st : state) :
  find_accepted w (conn_uri (col_conn col)) (col_db col) (col_name col)
    kvs selected ->
  find_documents w col (VDict kvs) st
  = (Ok (returned_documents (dict_get kvs "skip" (VInt 0))
           (dict_get kvs "limit" (VInt 100)) selected),
     {| st_client := st_client st; st_next := st_next st;
        st_log := (st_log st ++ [EvCall (col_conn col) "find"])%list |}).
Proof.
  intros (f & Hparse & Hargs & Hsort & Hskip & Hlimit & Hdocs).
  unfold find_documents, returned_documents, bind, lift, get. cbn.
  rewrite Hparse. unfold find, bind, lift. rewrite Hargs. cbn.
  set (sort := dict_get kvs "sort" VNone) in *.
  set (skip := dict_get kvs "skip" (VInt 0)) in *.
  set (limit := dict_get kvs "limit" (VInt 100)) in *.
  destruct (truthy sort) eqn:Ts;
    [unfold cursor_sort, bind, lift; rewrite (Hsort eq_refl); cbn|cbn];
    (destruct (truthy skip) eqn:Tk;
     [destruct (Hskip eq_refl) as (n & Hn & Hpos & Hfits);
      unfold cursor_skip; rewrite Hn; cbn [as_int];
      replace (n <? 0)%Z with false by (symmetry; now apply Z.ltb_ge);
      apply Z.leb_le in Hfits; cbn|cbn]);
    (destruct (truthy limit) eqn:Tl;
     [destruct (Hlimit eq_refl) as (m & Hm & Hfitm); unfold cursor_limit;
      rewrite Hm; pose proof (truthy_as_int_nonzero _ _ Tl Hm) as Hnz;
      apply Z.leb_le in Hfitm; cbn|cbn]);
    unfold list_cursor, encodable; cbn [cur_skip cur_limit cur_collection];
    rewrite ?Hfits, ?Hfitm; cbn [andb];
    unfold call, bind, log_event, lift; cbn; rewrite Hdocs; cbn;
    unfold apply_limit, apply_skip;
    try (replace (m =? 0)%Z with false by (symmetry; now apply Z.eqb_neq));
    reflexivity.
Qed.

Lemma dict_get_absent kvs k d :
  dict_lookup kvs k = None -> dict_get kvs k d = d.
Proof.
  induction kvs as [|[k' v] kvs IH]; simpl; auto.
  destruct (String.eqb k' k); [discriminate|auto].
Qed.

End FindFacts.


(** ** Insert requests (C8) *)

Section InsertFacts.
Variable w : World.
Variable MONGO_URI : string.
Import Py.




End InsertFacts.



(** ** Per-shard connections (C9) *)

(** C9, at two requests.  [GET /shards] while the server of shard B does
    not answer: the client opened for B is never closed, the [close] of
    the loop body being skipped by the exception, whereas the client
    opened for A is closed.  [POST /shard/A/query] with an empty body: the
    client opened for A is not closed either, the handler returning its
    400 before it reaches [close]. *)
Theorem failed_probe_leaves_client_open :
  let a := {| conn_id := 1; conn_uri := uri_A |} in
  let b := {| conn_id := 2; conn_uri := uri_B |} in
  let a' :=
    {| conn_id := 1;
       conn_uri := ShardDirectory.shard_uri "5000" primary_uri
                     "rsA/a1:27018,a2:27018" |} in
  let after_shards :=
    snd (serve one_shard_down primary_uri "k" ListShards
           (with_key (Some "k") VNone) initial_state) in
  let query_A :=
    serve five_documents primary_uri "k" (QueryShard "A")
      (with_key (Some "k") (VDict [])) initial_state in
  (In (EvOpen a) (st_log after_shards) /\ In (EvClose a) (st_log after_shards))
  /\
  (In (EvOpen b) (st_log after_shards)
   /\ ~ In (EvClose b) (st_log after_shards))
  /\
  fst query_A = Json 400 (error_body "Request body required")
  /\
  (In (EvOpen a') (st_log (snd query_A))
   /\ ~ In (EvClose a') (st_log (snd query_A))).
Proof.
  cbv zeta. vm_compute.
  repeat split; auto 10;
    intros H; repeat (destruct H as [H|H]; [discriminate H|]); exact H.
Qed.

(** ** Error responses (C7) *)

(** Where every exception is caught, the response is a success or an
    error object. *)

Section ErrorFacts.
Variable w : World.
Variables MONGO_URI API_KEY : string.

Lemma shaped_bind {A} (m : M A) (k : A -> M response) :
  (forall a, shaped (k a)) -> shaped (bind m k).
Proof.
  intros H st. unfold bind. destruct (m st) as [[a|e] st']; cbn; [|exact I].
  apply H.
Qed.

Lemma shaped_success body : shaped (ret (jsonify body)).
Proof. intros st. cbn. now left. Qed.

Lemma shaped_error status msg :
  In status [400; 401; 404; 500]%Z -> shaped (ret (Json status (error_body msg))).
Proof. intros H st. cbn. right. now exists msg. Qed.

Lemma try_except_shaped prefix (m : M response) st :
  shaped m -> error_shaped (fst (try_except prefix m st)).
Proof.
  intros H. specialize (H st). unfold try_except.
  destruct (m st) as [[r|[msg|msg]] st']; cbn in *.
  - exact H.
  - right. exists msg. cbn. auto 6.
  - right. eexists. cbn. auto 6.
Qed.

Lemma require_api_key_shaped (f : handler) r st :
  error_shaped (fst (f st)) ->
  error_shaped (fst (require_api_key API_KEY f r st)).
Proof.
  intros H. unfold require_api_key.
  destruct (req_api_key r) as [k|]; cbn.
  - destruct (negb _ || negb _); cbn; [|exact H].
    right. eexists. cbn. auto 6.
  - right. eexists. cbn. auto 6.
Qed.

Ltac shaped_step :=
  match goal with
  | |- shaped (bind _ _) => apply shaped_bind; intros
  | |- shaped (ret (jsonify _)) => apply shaped_success
  | |- shaped (ret (shard_not_found _)) => apply shaped_error; cbn; tauto
  | |- shaped (ret (Json _ (error_body _))) => apply shaped_error; cbn; tauto
  | |- shaped (if ?b then _ else _) => destruct b
  | |- shaped (match ?x with Some _ => _ | None => _ end) => destruct x
  | |- shaped (let _ := _ in _) => cbv zeta
  end.

(** X24.  On every route whose view function catches every exception,
    and on the health check, the answer is a success or a JSON object
    with an ["error"] field under status 400, 401, 404 or 500, whatever
    the request and whatever the deployment does. *)
Lemma caught_errors_are_json (ep : endpoint) (r : request) (st : state) :
  catches_every_exception ep = true ->
  error_shaped (fst (serve w MONGO_URI API_KEY ep r st)).
Proof.
  destruct ep; cbn [catches_every_exception serve]; try discriminate; intros _;
    try (apply require_api_key_shaped; apply try_except_shaped;
         repeat shaped_step).
  cbn. now left.
Qed.

End ErrorFacts.

(** C7, at [GET /databases] with a primary connection string that the
    driver refuses with an exception that is not a [PyMongoError]: the
    exception leaves [list_databases], whose only clause is
    [except PyMongoError], and the response is Flask's own 500 page
    instead of a JSON object with an ["error"] field.  [POST /query] on
    the same configuration converts the same exception. *)
Theorem non_driver_exception_escapes :
  fst (serve misconfigured bad_port_uri "k" ListDatabases
         (with_key (Some "k") VNone) initial_state)
  = InternalServerError
      (OtherException "Port must be an integer between 0 and 65535")
  /\
  fst (serve misconfigured bad_port_uri "k" Query
         (with_key (Some "k")
            (VDict [("database", VStr "d"); ("collection", VStr "c")]))
         initial_state)
  = Json 400
      (error_body
         "Query error: Port must be an integer between 0 and 65535").
Proof.
  split; reflexivity.
Qed.

(** ** The merged views of the fan-out (C1, C2) *)

Section MergeFacts.

Lemma extend_extend o l1 l2 :
  extend (extend o l1) l2 = extend o (l1 ++ l2)%list.
Proof.
  destruct l2 as [|y l2].
  - now rewrite app_nil_r.
  - destruct l1 as [|x l1]; cbn; [reflexivity|].
    now rewrite <- app_assoc.
Qed.

Lemma lookup_app_last k d n v :
  dbdict_lookup k (d ++ [(n, v)])%list
  = match dbdict_lookup k d with
    | Some x => Some x
    | None => if String.eqb n k then Some v else None
    end.
Proof.
  induction d as [|[n' ids] d IH]; cbn; [reflexivity|].
  destruct (String.eqb n' k); auto.
Qed.

Lemma dict_has_lookup n d :
  dict_has n d = match dbdict_lookup n d with Some _ => true | None => false end.
Proof.
  induction d as [|[n' ids] d IH]; cbn; [reflexivity|].
  destruct (String.eqb n' n); auto.
Qed.

Lemma lookup_none_not_key n d :
  dbdict_lookup n d = None -> ~ In n (map fst d).
Proof.
  induction d as [|[n' ids] d IH]; cbn; [tauto|].
  destruct (String.eqb n' n) eqn:E; [discriminate|].
  intros H [->|H']; [now rewrite String.eqb_refl in E|now apply IH].
Qed.

Lemma lookup_in k ids d :
  NoDup (map fst d) -> (In (k, ids) d <-> dbdict_lookup k d = Some ids).
Proof.
  induction d as [|[n v] d IH]; cbn; intros ND.
  - split; [tauto|discriminate].
  - inversion ND as [|? ? Hn ND']; subst.
    destruct (String.eqb n k) eqn:E.
    + apply String.eqb_eq in E. subst n. split.
      * intros [[= <-]|H]; [reflexivity|].
        exfalso. apply Hn. now apply (in_map fst) in H.
      * intros [= <-]. now left.
    + split.
      * intros [[= -> _]|H]; [now rewrite String.eqb_refl in E|].
        now apply IH.
      * intros H. right. now apply IH.
Qed.

Lemma lookup_dict_append k n sid d :
  dbdict_lookup k (dict_append n sid d)
  = if String.eqb n k
    then option_map (fun ids => (ids ++ [sid])%list) (dbdict_lookup k d)
    else dbdict_lookup k d.
Proof.
  induction d as [|[n' ids] d IH]; cbn.
  - now destruct (String.eqb n k).
  - destruct (String.eqb n' n) eqn:E; cbn.
    + apply String.eqb_eq in E. subst n'.
      now destruct (String.eqb n k).
    + rewrite IH. destruct (String.eqb n' k) eqn:E'; [|reflexivity].
      apply String.eqb_eq in E'. subst n'.
      destruct (String.eqb n k) eqn:E''; [|reflexivity].
      apply String.eqb_eq in E''. subst n. now rewrite String.eqb_refl in E.
Qed.

Lemma keys_dict_append n sid d :
  map fst (dict_append n sid d) = map fst d.
Proof.
  induction d as [|[n' ids] d IH]; cbn; [reflexivity|].
  destruct (String.eqb n' n); cbn; now rewrite ?IH.
Qed.

Lemma lookup_merge_database k sid d n :
  dbdict_lookup k (merge_database sid d n)
  = if String.eqb n k then Some (ids_of (dbdict_lookup k d) ++ [sid])%list
    else dbdict_lookup k d.
Proof.
  unfold merge_database. rewrite lookup_dict_append, dict_has_lookup.
  destruct (String.eqb n k) eqn:E.
  - apply String.eqb_eq in E. subst n.
    destruct (dbdict_lookup k d) eqn:L; cbn.
    + now rewrite L.
    + now rewrite lookup_app_last, L, String.eqb_refl.
  - destruct (dbdict_lookup n d) eqn:L; cbn; [reflexivity|].
    rewrite lookup_app_last, E. now destruct (dbdict_lookup k d).
Qed.

Lemma keys_merge_database sid d n :
  NoDup (map fst d) -> NoDup (map fst (merge_database sid d n)).
Proof.
  intros ND. unfold merge_database. rewrite keys_dict_append, dict_has_lookup.
  destruct (dbdict_lookup n d) eqn:L; cbn; [exact ND|].
  rewrite map_app. cbn. apply NoDup_app; [exact ND|repeat constructor; auto|].
  intros a Ha [<-|[]]. now apply (lookup_none_not_key _ _ L).
Qed.

Lemma lookup_fold_merge k sid dbs d :
  dbdict_lookup k (fold_left (merge_database sid) dbs d)
  = extend (dbdict_lookup k d)
      (map (fun _ => sid) (filter (String.eqb k) dbs)).
Proof.
  revert d. induction dbs as [|n dbs IH]; intros d; cbn; [reflexivity|].
  rewrite IH, lookup_merge_database, (String.eqb_sym k n).
  destruct (String.eqb n k); [|reflexivity].
  cbn. destruct (map _ (filter _ dbs)); cbn; [reflexivity|].
  now rewrite <- app_assoc.
Qed.

Lemma keys_fold_merge sid dbs d :
  NoDup (map fst d) -> NoDup (map fst (fold_left (merge_database sid) dbs d)).
Proof.
  revert d. induction dbs as [|n dbs IH]; intros d ND; cbn; [exact ND|].
  now apply IH, keys_merge_database.
Qed.

Section Shards.
Variable w : World.
Variable MONGO_URI : string.

Lemma lookup_merge_shards k shards d :
  dbdict_lookup k (fold_left (fun acc sh => fst (databases_step w MONGO_URI sh acc)) shards d)
  = extend (dbdict_lookup k d) (contributors w MONGO_URI k shards).
Proof.
  revert d. induction shards as [|sh shards IH]; intros d; cbn; [reflexivity|].
  rewrite IH. unfold databases_step. cbn [fst].
  destruct (listed (databases_outcome w MONGO_URI sh)) as [dbs|]; cbn.
  - now rewrite lookup_fold_merge, extend_extend.
  - reflexivity.
Qed.

Lemma keys_merge_shards shards d :
  NoDup (map fst d) ->
  NoDup (map fst (fold_left (fun acc sh => fst (databases_step w MONGO_URI sh acc)) shards d)).
Proof.
  revert d. induction shards as [|sh shards IH]; intros d ND; cbn; [exact ND|].
  apply IH. unfold databases_step. cbn [fst].
  destruct (listed (databases_outcome w MONGO_URI sh)); [|exact ND].
  now apply keys_fold_merge.
Qed.

End Shards.

Lemma lookup_add_config_database k n d :
  dbdict_lookup k (add_config_database d n)
  = match dbdict_lookup k d with
    | Some x => Some x
    | None => if String.eqb n k then Some ["config"] else None
    end.
Proof.
  unfold add_config_database. rewrite dict_has_lookup.
  destruct (dbdict_lookup n d) eqn:L; cbn.
  - destruct (dbdict_lookup k d) eqn:L'; [reflexivity|].
    destruct (String.eqb n k) eqn:E; [|reflexivity].
    apply String.eqb_eq in E. subst n. congruence.
  - apply lookup_app_last.
Qed.

Lemma keys_add_config_database n d :
  NoDup (map fst d) -> NoDup (map fst (add_config_database d n)).
Proof.
  intros ND. unfold add_config_database. rewrite dict_has_lookup.
  destruct (dbdict_lookup n d) eqn:L; cbn; [exact ND|].
  rewrite map_app. cbn. apply NoDup_app; [exact ND|repeat constructor; auto|].
  intros a Ha [<-|[]]. now apply (lookup_none_not_key _ _ L).
Qed.

Lemma lookup_add_config_databases k d :
  dbdict_lookup k (add_config_databases d)
  = match dbdict_lookup k d with
    | Some x => Some x
    | None => if Py.mem k ["admin"; "config"; "local"] then Some ["config"]
              else None
    end.
Proof.
  unfold add_config_databases. cbn [fold_left].
  rewrite !lookup_add_config_database.
  destruct (dbdict_lookup k d); [reflexivity|].
  unfold Py.mem. cbn [existsb].
  rewrite (String.eqb_sym k "admin"), (String.eqb_sym k "config"),
    (String.eqb_sym k "local").
  destruct (String.eqb "admin" k), (String.eqb "config" k),
    (String.eqb "local" k); reflexivity.
Qed.

Lemma keys_add_config_databases d :
  NoDup (map fst d) -> NoDup (map fst (add_config_databases d)).
Proof.
  intros ND. unfold add_config_databases. cbn [fold_left].
  now repeat apply keys_add_config_database.
Qed.

End MergeFacts.

Section SetFacts.
Import Py.

Lemma mem_in x l : mem x l = true <-> In x l.
Proof.
  unfold mem. rewrite existsb_exists. split.
  - intros (y & Hy & E). apply String.eqb_eq in E. now subst.
  - intros H. exists x. split; [exact H|apply String.eqb_refl].
Qed.

Lemma in_set_update x s l : In x (set_update s l) <-> In x s \/ In x l.
Proof.
  unfold set_update. revert s. induction l as [|y l IH]; intros s; cbn.
  - tauto.
  - rewrite IH. destruct (mem y s) eqn:M.
    + apply mem_in in M. split; [tauto|]. intros [H|[<-|H]]; auto.
    + rewrite in_app_iff. cbn. tauto.
Qed.

Lemma NoDup_set_update s l : NoDup s -> NoDup (set_update s l).
Proof.
  unfold set_update. revert s. induction l as [|y l IH]; intros s ND; cbn.
  - exact ND.
  - apply IH. destruct (mem y s) eqn:M; [exact ND|].
    apply NoDup_app; [exact ND|repeat constructor; auto|].
    intros a Ha [<-|[]].
    apply mem_in in Ha. congruence.
Qed.

Lemma in_insert_sorted x y l : In x (insert_sorted y l) <-> x = y \/ In x l.
Proof.
  induction l as [|z l IH]; cbn.
  - intuition.
  - destruct (String.leb y z); cbn; [intuition|]. rewrite IH. intuition.
Qed.

Lemma in_sorted x l : In x (sorted l) <-> In x l.
Proof.
  unfold sorted. induction l as [|y l IH]; cbn; [tauto|].
  rewrite in_insert_sorted, IH. intuition.
Qed.

Lemma NoDup_insert_sorted y l :
  ~ In y l -> NoDup l -> NoDup (insert_sorted y l).
Proof.
  induction l as [|z l IH]; cbn; intros Hy ND.
  - repeat constructor. auto.
  - destruct (String.leb y z).
    + constructor; [cbn; exact Hy|exact ND].
    + inversion ND as [|? ? Hz ND']; subst. constructor.
      * rewrite in_insert_sorted. intros [->|H]; [apply Hy; now left|auto].
      * apply IH; [intros H; apply Hy; now right|exact ND'].
Qed.

Lemma NoDup_sorted l : NoDup l -> NoDup (sorted l).
Proof.
  unfold sorted. induction l as [|y l IH]; cbn; intros ND; [constructor|].
  inversion ND; subst. apply NoDup_insert_sorted; [|auto].
  now rewrite (in_sorted y l).
Qed.

Lemma Sorted_insert_sorted y l :
  Sorted str_le l -> Sorted str_le (insert_sorted y l).
Proof.
  induction l as [|z l IH]; cbn; intros S.
  - repeat constructor.
  - destruct (String.leb y z) eqn:E.
    + constructor; [exact S|]. constructor. exact E.
    + inversion S as [|? ? S' Hd]; subst. constructor; [now apply IH|].
      assert (Hzy : str_le z y).
      { destruct (String.leb_total y z) as [H|H]; [congruence|exact H]. }
      destruct l as [|u l]; cbn.
      * constructor. exact Hzy.
      * destruct (String.leb y u); constructor; [exact Hzy|].
        now inversion Hd.
Qed.

Lemma Sorted_sorted l : Sorted str_le (sorted l).
Proof.
  unfold sorted. induction l as [|y l IH]; cbn; [constructor|].
  now apply Sorted_insert_sorted.
Qed.

End SetFacts.

Section FanOutFacts.
Variable w : World.
Variable MONGO_URI : string.
Import Py.

Lemma for_each_shard_pure {A}
    (probe : shard -> A -> state -> (A * value) * state)
    (step : shard -> A -> A * value) :
  (forall sh acc st, fst (probe sh acc st) = step sh acc) ->
  forall shards acc entries st,
    fst (for_each_shard probe shards acc entries st)
    = fold_shards step shards acc entries.
Proof.
  intros H. induction shards as [|sh shards IH]; intros acc entries st; cbn.
  - reflexivity.
  - specialize (H sh acc st). destruct (probe sh acc st) as [[acc' e] st'].
    cbn in H. rewrite <- H. apply IH.
Qed.

Lemma fold_shards_split {A} (f : shard -> A -> A) (g : shard -> value)
    (shards : list shard) (acc : A) (entries : list value) :
  fold_shards (fun sh acc => (f sh acc, g sh)) shards acc entries
  = (fold_left (fun acc sh => f sh acc) shards acc,
     (entries ++ map g shards)%list).
Proof.
  revert acc entries. induction shards as [|sh shards IH]; intros acc entries;
    cbn.
  - now rewrite app_nil_r.
  - rewrite IH. now rewrite <- app_assoc.
Qed.

Lemma test_shard_pure sh u st :
  fst (test_shard w MONGO_URI sh u st) = test_step w MONGO_URI sh u.
Proof.
  unfold test_shard, test_step, test_failure, probe_uri, bind, MongoClient,
    ping, close, call, bind, log_event, lift.
  destruct u.
  destruct (w_mongo_client w _); cbn; [|reflexivity].
  destruct (w_ping w _); cbn; [|reflexivity].
  destruct (w_close w _); reflexivity.
Qed.

Lemma probe_databases_pure sh acc st :
  fst (probe_databases w MONGO_URI sh acc st) = databases_step w MONGO_URI sh acc.
Proof.
  unfold probe_databases, databases_step, databases_outcome, probe_uri,
    MongoClient, list_database_names, close, call, bind, log_event, lift.
  destruct (w_mongo_client w _); cbn; [|reflexivity].
  destruct (w_list_database_names w _); cbn; [|reflexivity].
  destruct (w_close w _); reflexivity.
Qed.

Lemma probe_collections_pure db sh acc st :
  fst (probe_collections w MONGO_URI db sh acc st)
  = collections_step w MONGO_URI db sh acc.
Proof.
  unfold probe_collections, collections_step, collections_outcome, probe_uri,
    MongoClient, list_database_names, list_collection_names, get_database,
    close, call, bind, log_event, lift.
  destruct (w_mongo_client w _); cbn; [|reflexivity].
  destruct (w_list_database_names w _); cbn; [|reflexivity].
  destruct (mem db _); cbn.
  - destruct (w_database w _); cbn; [|reflexivity].
    destruct (w_list_collection_names w _ _); cbn; [|reflexivity].
    destruct (w_close w _); reflexivity.
  - destruct (w_close w _); reflexivity.
Qed.

Lemma list_shards_run st client st1 shards :
  get_client w MONGO_URI st = (Ok client, st1) ->
  w_find_shards w (conn_uri client) = Ok shards ->
  let details := map (fun sh => snd (test_step w MONGO_URI sh tt)) shards in
  fst (list_shards w MONGO_URI st)
  = jsonify (VDict [("total_shards", len details);
                    ("online_shards", count_online details);
                    ("offline_shards", count_offline details);
                    ("shards", serialize_response w (VList details))]).
Proof.
  intros Hclient Hshards details.
  unfold list_shards, try_except, bind. rewrite Hclient.
  unfold find_shards, call, bind, log_event, lift. rewrite Hshards.
  unfold total.
  match goal with
  | |- context [for_each_shard ?p shards tt [] ?s] =>
      pose proof (for_each_shard_pure p (test_step w MONGO_URI)
                    (test_shard_pure) shards tt [] s) as P;
      destruct (for_each_shard p shards tt [] s) as [[u rs] st2]
  end.
  cbn in P.
  change (test_step w MONGO_URI)
    with (fun sh (acc : unit) =>
            ((fun _ _ => tt) sh acc, snd (test_step w MONGO_URI sh tt))) in P.
  rewrite fold_shards_split in P. cbn in P. injection P as _ ->.
  reflexivity.
Qed.

Lemma list_available_databases_run st client st1 shards :
  get_client w MONGO_URI st = (Ok client, st1) ->
  w_find_shards w (conn_uri client) = Ok shards ->
  let details :=
    map (fun sh => detail databases_result sh (databases_outcome w MONGO_URI sh))
      shards in
  fst (list_available_databases w MONGO_URI st)
  = jsonify (VDict [("total_shards", len shards);
                    ("online_shards", count_online details);
                    ("databases",
                      VList (database_values (merged_databases w MONGO_URI shards)));
                    ("shard_details", VList details)]).
Proof.
  intros Hclient Hshards details.
  unfold list_available_databases, try_except, bind. rewrite Hclient.
  unfold find_shards, call, bind, log_event, lift. rewrite Hshards.
  unfold total.
  match goal with
  | |- context [for_each_shard ?p shards [] [] ?s] =>
      pose proof (for_each_shard_pure p (databases_step w MONGO_URI)
                    (probe_databases_pure) shards [] [] s) as P;
      destruct (for_each_shard p shards [] [] s) as [[acc rs] st2]
  end.
  cbn in P.
  change (databases_step w MONGO_URI)
    with (fun sh acc =>
            (fst (databases_step w MONGO_URI sh acc),
             detail databases_result sh (databases_outcome w MONGO_URI sh)))
    in P.
  rewrite fold_shards_split in P. cbn in P. injection P as -> ->.
  reflexivity.
Qed.

Lemma list_available_collections_run db st client st1 shards :
  get_client w MONGO_URI st = (Ok client, st1) ->
  w_find_shards w (conn_uri client) = Ok shards ->
  let details :=
    map (fun sh =>
           detail collections_result sh (collections_outcome w MONGO_URI db sh))
      shards in
  fst (list_available_collections w MONGO_URI db st)
  = jsonify (VDict [("database", VStr db);
                    ("collections", VList (map VStr (merged_collections w MONGO_URI db shards)));
                    ("total_shards", len shards);
                    ("online_shards", count_online details);
                    ("shard_details", VList details)]).
Proof.
  intros Hclient Hshards details.
  unfold list_available_collections, try_except, bind. rewrite Hclient.
  unfold find_shards, call, bind, log_event, lift. rewrite Hshards.
  unfold total.
  match goal with
  | |- context [for_each_shard ?p shards [] [] ?s] =>
      pose proof (for_each_shard_pure p (collections_step w MONGO_URI db)
                    (probe_collections_pure db) shards [] [] s) as P;
      destruct (for_each_shard p shards [] [] s) as [[acc rs] st2]
  end.
  cbn in P.
  change (collections_step w MONGO_URI db)
    with (fun sh acc =>
            (fst (collections_step w MONGO_URI db sh acc),
             detail collections_result sh
               (collections_outcome w MONGO_URI db sh)))
    in P.
  rewrite fold_shards_split in P. cbn in P. injection P as -> ->.
  reflexivity.
Qed.



Lemma merged_databases_lookup name shards :
  dbdict_lookup name (merged_databases w MONGO_URI shards)
  = union_entry w MONGO_URI name shards.
Proof.
  unfold merged_databases, union_entry.
  rewrite lookup_add_config_databases, lookup_merge_shards. cbn.
  now destruct (contributors w MONGO_URI name shards).
Qed.

Lemma merged_databases_keys shards :
  NoDup (map fst (merged_databases w MONGO_URI shards)).
Proof.
  apply keys_add_config_databases, keys_merge_shards. constructor.
Qed.

Lemma merged_databases_in name ids shards :
  In (name, ids) (merged_databases w MONGO_URI shards)
  <-> union_entry w MONGO_URI name shards = Some ids.
Proof.
  rewrite (lookup_in _ _ _ (merged_databases_keys shards)).
  now rewrite merged_databases_lookup.
Qed.

Lemma in_merge_collections db x shards acc :
  In x (fold_left (fun acc sh => fst (collections_step w MONGO_URI db sh acc))
          shards acc)
  <-> In x acc
      \/ exists sh colls,
           In sh shards
           /\ listed (collections_outcome w MONGO_URI db sh) = Some colls
           /\ In x colls.
Proof.
  revert acc. induction shards as [|sh shards IH]; intros acc; cbn.
  - split; [tauto|]. intros [H|(sh & colls & [] & _)]. exact H.
  - rewrite IH. unfold collections_step. cbn [fst].
    destruct (listed (collections_outcome w MONGO_URI db sh)) as [cs|] eqn:L.
    + rewrite in_set_update. split.
      * intros [[H|H]|(sh' & colls & Hin & Hl & Hx)]; auto.
        -- right. exists sh, cs. auto.
        -- right. exists sh', colls. auto.
      * intros [H|(sh' & colls & [<-|Hin] & Hl & Hx)]; auto.
        -- rewrite L in Hl. injection Hl as <-. auto.
        -- right. exists sh', colls. auto.
    + split.
      * intros [H|(sh' & colls & Hin & Hl & Hx)]; auto.
        right. exists sh', colls. auto.
      * intros [H|(sh' & colls & [<-|Hin] & Hl & Hx)]; auto.
        -- congruence.
        -- right. exists sh', colls. auto.
Qed.

Lemma NoDup_merge_collections db shards acc :
  NoDup acc ->
  NoDup (fold_left (fun acc sh => fst (collections_step w MONGO_URI db sh acc))
           shards acc).
Proof.
  revert acc. induction shards as [|sh shards IH]; intros acc ND; cbn;
    [exact ND|].
  apply IH. unfold collections_step. cbn [fst].
  destruct (listed (collections_outcome w MONGO_URI db sh)); [|exact ND].
  now apply NoDup_set_update.
Qed.

Lemma merged_collections_in db n shards :
  In n (merged_collections w MONGO_URI db shards)
  <-> exists sh colls,
        In sh shards
        /\ listed (collections_outcome w MONGO_URI db sh) = Some colls
        /\ In n colls.
Proof.
  unfold merged_collections. rewrite in_sorted, in_merge_collections.
  split; [intros [[]|H]; exact H|auto].
Qed.

Lemma failed_detail result sh o e :
  failure o = Some e ->
  detail result sh o = result sh false [] (VStr (str_exn e)).
Proof.
  destruct o; cbn; [now intros [= ->]|discriminate].
Qed.


(** C1, amended.  Once the shard metadata is read,
    [/databases/available] answers with a merged list that has one entry
    per name, and the entry of [name] carries the identifiers of the
    shards whose listing succeeded and contains [name], in metadata
    order; the names [admin], [config] and [local] are always present,
    and carry the label ["config"] when no shard lists them.
    [/databases/<db>/collections/available] answers with the sorted,
    duplicate-free list of the collection names listed by the shards whose
    listing succeeded; the names carry no shard identifiers.  In both, a
    shard whose probe raises before it has data appears in
    [shard_details] offline, with the error message and no data. *)
Theorem merged_lists_are_unions st client st1 shards :
  get_client w MONGO_URI st = (Ok client, st1) ->
  w_find_shards w (conn_uri client) = Ok shards ->
  (exists merged details,
     fst (list_available_databases w MONGO_URI st)
     = jsonify (VDict [("total_shards", len shards);
                       ("online_shards", count_online details);
                       ("databases", VList (database_values merged));
                       ("shard_details", VList details)])
     /\ NoDup (map fst merged)
     /\ (forall name ids,
           In (name, ids) merged
           <-> union_entry w MONGO_URI name shards = Some ids)
     /\ (forall sh e,
           In sh shards ->
           failure (databases_outcome w MONGO_URI sh) = Some e ->
           In (databases_result sh false [] (VStr (str_exn e))) details))
  /\
  (forall db,
   exists names details,
     fst (list_available_collections w MONGO_URI db st)
     = jsonify (VDict [("database", VStr db);
                       ("collections", VList (map VStr names));
                       ("total_shards", len shards);
                       ("online_shards", count_online details);
                       ("shard_details", VList details)])
     /\ Sorted str_le names
     /\ NoDup names
     /\ (forall n,
           In n names
           <-> exists sh colls,
                 In sh shards
                 /\ listed (collections_outcome w MONGO_URI db sh) = Some colls
                 /\ In n colls)
     /\ (forall sh e,
           In sh shards ->
           failure (collections_outcome w MONGO_URI db sh) = Some e ->
           In (collections_result sh false [] (VStr (str_exn e))) details)).
Proof.
  intros Hclient Hshards. split.
  - eexists _, _. split; [|split; [|split]].
    + exact (list_available_databases_run st client st1 shards Hclient Hshards).
    + apply merged_databases_keys.
    + intros name ids. apply merged_databases_in.
    + intros sh e Hin Hf. apply in_map_iff. exists sh.
      split; [now apply failed_detail|exact Hin].
  - intros db. eexists _, _. split; [|split; [|split; [|split]]].
    + exact (list_available_collections_run db st client st1 shards
               Hclient Hshards).
    + apply Sorted_sorted.
    + apply NoDup_sorted, NoDup_merge_collections. constructor.
    + intros n. apply merged_collections_in.
    + intros sh e Hin Hf. apply in_map_iff. exists sh.
      split; [now apply failed_detail|exact Hin].
Qed.


End FanOutFacts.

(** The databases part, on the deployment where shard B does not answer. *)
Lemma merged_lists_are_unions_witness :
  exists merged details,
    fst (list_available_databases one_shard_down primary_uri initial_state)
    = jsonify (VDict [("total_shards", VInt 2);
                      ("online_shards", count_online details);
                      ("databases", VList (database_values merged));
                      ("shard_details", VList details)])
    /\ NoDup (map fst merged)
    /\ (forall name ids,
          In (name, ids) merged
          <-> union_entry one_shard_down primary_uri name [shard_A; shard_B]
              = Some ids)
    /\ (forall sh e,
          In sh [shard_A; shard_B] ->
          failure (databases_outcome one_shard_down primary_uri sh) = Some e ->
          In (databases_result sh false [] (VStr (str_exn e))) details).
Proof.
  exact (proj1 (merged_lists_are_unions one_shard_down primary_uri
                  initial_state primary_client connected [shard_A; shard_B]
                  eq_refl eq_refl)).
Defined.

(** C1 as stated fails when shard A, the only reachable shard, holds the
    single database [app]: the merged database list has four entries,
    [app] from A and the three names of the config server, and the merged
    collection list is a list of bare names. *)
Lemma available_databases_add_config_names :
  listed (databases_outcome one_shard_down primary_uri shard_A) = Some ["app"]
  /\
  failure (databases_outcome one_shard_down primary_uri shard_B)
  = Some (PyMongoError "b1:27018: timed out")
  /\
  fst (serve one_shard_down primary_uri "k" ListAvailableDatabases
         (with_key (Some "k") VNone) initial_state)
  = jsonify (VDict [
      ("total_shards", VInt 2);
      ("online_shards", VInt 1);
      ("databases",
        VList [VDict [("name", VStr "app"); ("shards", VList [VStr "A"])];
               VDict [("name", VStr "admin"); ("shards", VList [VStr "config"])];
               VDict [("name", VStr "config"); ("shards", VList [VStr "config"])];
               VDict [("name", VStr "local"); ("shards", VList [VStr "config"])]]);
      ("shard_details",
        VList [VDict [("shard_id", VStr "A"); ("online", VBool true);
                      ("databases", VList [VStr "app"]); ("error", VNone)];
               VDict [("shard_id", VStr "B"); ("online", VBool false);
                      ("databases", VList []);
                      ("error", VStr "b1:27018: timed out")]])])
  /\
  map fst (merged_databases one_shard_down primary_uri [shard_A; shard_B])
  <> ["app"]
  /\
  fst (serve one_shard_down primary_uri "k" (ListAvailableCollections "app")
         (with_key (Some "k") VNone) initial_state)
  = jsonify (VDict [
      ("database", VStr "app");
      ("collections", VList [VStr "orders"; VStr "users"]);
      ("total_shards", VInt 2);
      ("online_shards", VInt 1);
      ("shard_details",
        VList [VDict [("shard_id", VStr "A"); ("online", VBool true);
                      ("collections", VList [VStr "users"; VStr "orders"]);
                      ("error", VNone)];
               VDict [("shard_id", VStr "B"); ("online", VBool false);
                      ("collections", VList []);
                      ("error", VStr "b1:27018: timed out")]])]).
Proof.
  repeat split; try reflexivity. vm_compute. discriminate.
Qed.



(** * Further properties of the code *)

(** ** Host specifications and shard connection strings *)

Section SplitFacts.
Import PyStr ShardDirectory.

Lemma contains_app (c : ascii) (a b : string) :
  contains c (a ++ b) = contains c a || contains c b.
Proof.
  induction a as [|x a IH]; cbn; [reflexivity|].
  now destruct (Ascii.eqb x c).
Qed.

Lemma contains_before (c d : ascii) (s : string) :
  contains c s = false -> contains c (before d s) = false.
Proof.
  induction s as [|x s IH]; cbn; [reflexivity|].
  destruct (Ascii.eqb x c) eqn:E; [discriminate|]. intros H.
  destruct (Ascii.eqb x d); cbn; [reflexivity|]. rewrite E. now apply IH.
Qed.

Lemma contains_after (c d : ascii) (s : string) :
  contains c s = false -> contains c (after d s) = false.
Proof.
  induction s as [|x s IH]; cbn; [reflexivity|].
  destruct (Ascii.eqb x c) eqn:E; [discriminate|]. intros H.
  destruct (Ascii.eqb x d); auto.
Qed.

Lemma before_free (c : ascii) (s : string) : contains c (before c s) = false.
Proof.
  induction s as [|x s IH]; cbn; [reflexivity|].
  destruct (Ascii.eqb x c) eqn:E; cbn; [reflexivity|]. now rewrite E.
Qed.

Lemma before_after (c : ascii) (s : string) :
  contains c s = true -> before c s ++ String c (after c s) = s.
Proof.
  induction s as [|x s IH]; cbn; [discriminate|].
  destruct (Ascii.eqb x c) eqn:E.
  - apply Ascii.eqb_eq in E. now subst.
  - intros H. cbn. now rewrite IH.
Qed.

(** X1.  [host_str.split("/", 1)] loses nothing: a host specification
    with a slash is the replica-set name, the slash and the host list the
    probe goes on with, and the name it sets aside has no slash. *)
Theorem host_specification_split (host_str : string) :
  contains "/" host_str = true ->
  host_str = before "/" host_str ++ "/" ++ hosts_of host_str
  /\ contains "/" (before "/" host_str) = false.
Proof.
  intros H. unfold hosts_of. rewrite H. split.
  - symmetry. now apply before_after.
  - apply before_free.
Qed.

(** A replica set of two hosts. *)
Lemma host_specification_split_witness :
  "rs0/h1:27018,h2:27018"
  = before "/" "rs0/h1:27018,h2:27018" ++ "/"
      ++ hosts_of "rs0/h1:27018,h2:27018"
  /\ contains "/" (before "/" "rs0/h1:27018,h2:27018") = false.
Proof.
  apply (host_specification_split "rs0/h1:27018,h2:27018"). reflexivity.
Defined.

(** X2.  Whatever the host specification, the host a shard is probed on
    is a single entry of the host list: it has no comma, and the host
    list starts with it, followed by a comma when it is not the whole
    list. *)
Theorem first_host_single (host_str : string) :
  contains "," (first_host host_str) = false
  /\ (hosts_of host_str = first_host host_str
      \/ exists others,
           hosts_of host_str = first_host host_str ++ "," ++ others).
Proof.
  unfold first_host. split; [apply before_free|].
  destruct (contains "," (hosts_of host_str)) eqn:C.
  - right. exists (after "," (hosts_of host_str)).
    symmetry. now apply before_after.
  - left. symmetry. now apply before_absent.
Qed.

(** X3.  When neither the primary connection string nor the host
    specification of the shard has an [@], the shard connection string
    has none: no user information is sent to the shard. *)
Theorem shard_uri_no_credentials (timeout main_uri host_str : string) :
  contains "@" main_uri = false ->
  contains "@" host_str = false ->
  contains "@" timeout = false ->
  contains "@" (shard_uri timeout main_uri host_str) = false.
Proof.
  intros Hm Hh Ht. unfold shard_uri. rewrite Hm.
  assert (F : contains "@" (first_host host_str) = false).
  { unfold first_host, hosts_of. apply contains_before.
    destruct (contains "/" host_str); [now apply contains_after|exact Hh]. }
  rewrite !contains_app, F, Ht. reflexivity.
Qed.

Lemma shard_uri_no_credentials_witness :
  contains "@" (shard_uri "3000" "mongodb://mongos:27017" "rs0/h1:27018,h2:27018")
  = false.
Proof.
  apply (shard_uri_no_credentials "3000" "mongodb://mongos:27017"
           "rs0/h1:27018,h2:27018"); reflexivity.
Defined.

(** X4.  On a primary connection string of the shape
    [mongodb://creds@rest], where [creds] has neither [@] nor [/], every
    shard connection string carries [creds] unchanged in front of the
    host, and asks for the [admin] authentication database. *)
Theorem shard_uri_standard_credentials
    (timeout creds rest host_str : string) :
  contains "@" creds = false ->
  contains "/" creds = false ->
  shard_uri timeout ("mongodb://" ++ creds ++ "@" ++ rest) host_str
  = "mongodb://" ++ creds ++ "@" ++ first_host host_str
      ++ "/?directConnection=true&serverSelectionTimeoutMS=" ++ timeout
      ++ "&authSource=admin".
Proof.
  intros Hat Hsl.
  pose proof (credentials_portion_standard creds rest Hat Hsl) as C.
  remember ("mongodb://" ++ creds ++ "@" ++ rest) as main_uri.
  unfold credentials_portion in C. unfold shard_uri.
  destruct (contains "@" main_uri); [|discriminate].
  assert (E : creds_part main_uri = creds) by congruence.
  now rewrite E.
Qed.

Lemma shard_uri_standard_credentials_witness :
  shard_uri "5000" ("mongodb://" ++ "user:pw" ++ "@" ++ "mongos:27017/admin")
    "rs0/h1:27018,h2:27018"
  = "mongodb://" ++ "user:pw" ++ "@" ++ first_host "rs0/h1:27018,h2:27018"
      ++ "/?directConnection=true&serverSelectionTimeoutMS=" ++ "5000"
      ++ "&authSource=admin".
Proof.
  apply (shard_uri_standard_credentials "5000" "user:pw" "mongos:27017/admin"
           "rs0/h1:27018,h2:27018"); reflexivity.
Defined.

End SplitFacts.

(** ** Requests refused before the deployment is reached *)

Section RefusalFacts.
Variable w : World.
Variables MONGO_URI API_KEY : string.
Import Py.

Lemma require_api_key_authorized (f : handler) (r : request) (st : state) :
  authorized API_KEY r -> require_api_key API_KEY f r st = f st.
Proof.
  intros [K N]. unfold require_api_key. rewrite K. cbn.
  rewrite String.eqb_refl.
  destruct (String.eqb API_KEY "") eqn:E; [|reflexivity].
  apply String.eqb_eq in E. contradiction.
Qed.

(** X7.  On each of the seven routes that read a JSON body first, a
    request whose body [get_json()] reads as a falsy value ([null], [{}],
    [[]], [0], [""], [false]) is answered 400 "Request body required",
    and nothing is done: no client is built, no call is made.  A body
    that [get_json()] does not read at all makes it raise, and is not
    among these. *)
Theorem missing_body_refused
    (ep : endpoint) (prefix : string) (r : request) (st : state)
    (data : value) :
  body_prefix ep = Some prefix ->
  authorized API_KEY r ->
  req_json r = Ok data ->
  truthy data = false ->
  serve w MONGO_URI API_KEY ep r st
  = (Json 400 (error_body "Request body required"), st).
Proof.
  intros Hep Hauth Hjson Hdata.
  destruct ep; try discriminate Hep; cbn [serve];
    rewrite (require_api_key_authorized _ _ _ Hauth);
    unfold query, aggregate, insert, update, delete, run_command, sample,
      try_except, bind, lift;
    now rewrite Hjson, Hdata.
Qed.

(** X8.  On the same routes a body that cannot be read as JSON, or that
    is JSON but not an object, is answered 400 with the message of the
    exception behind the route's prefix, and nothing is done. *)
Theorem unreadable_body_refused
    (ep : endpoint) (prefix : string) (r : request) (st : state) :
  body_prefix ep = Some prefix ->
  authorized API_KEY r ->
  (forall msg,
     req_json r = Raise (OtherException msg) ->
     serve w MONGO_URI API_KEY ep r st
     = (Json 400 (error_body (prefix ++ msg)), st))
  /\
  (forall data,
     req_json r = Ok data ->
     truthy data = true ->
     is_dict data = false ->
     serve w MONGO_URI API_KEY ep r st
     = (Json 400
          (error_body
             (prefix ++ "'" ++ type_name data
                ++ "' object has no attribute 'get'")), st)).
Proof.
  intros Hep Hauth. split.
  - intros msg Hjson.
    destruct ep; try discriminate Hep; injection Hep as <-; cbn [serve];
      rewrite (require_api_key_authorized _ _ _ Hauth);
      unfold query, aggregate, insert, update, delete, run_command, sample,
        try_except, bind, lift;
      now rewrite Hjson.
  - intros data Hjson Hdata Hdict.
    destruct ep; try discriminate Hep; injection Hep as <-; cbn [serve];
      rewrite (require_api_key_authorized _ _ _ Hauth);
      unfold query, aggregate, insert, update, delete, run_command, sample,
        try_except, bind, lift;
      rewrite Hjson, Hdata; cbn;
      destruct data; try discriminate Hdict; reflexivity.
Qed.

(** X9.  On the same routes a JSON object that lacks one of the fields
    the route requires, or gives it a falsy value, is answered 400 with
    the route's message, and nothing is done: the fields are checked
    before [get_client()] is called. *)
Theorem missing_field_refused
    (ep : endpoint) (fields : list string) (msg : string) (r : request)
    (st : state) (kvs : list (string * value)) (field : string) :
  required_fields ep = Some (fields, msg) ->
  authorized API_KEY r ->
  req_json r = Ok (VDict kvs) ->
  kvs <> [] ->
  In field fields ->
  truthy (dict_get kvs field VNone) = false ->
  serve w MONGO_URI API_KEY ep r st = (Json 400 (error_body msg), st).
Proof.
  intros Hep Hauth Hjson Hkvs Hin Hfalsy.
  assert (Hdata : truthy (VDict kvs) = true) by (now destruct kvs).
  destruct ep; try discriminate Hep; injection Hep as <- <-; cbn [serve];
    rewrite (require_api_key_authorized _ _ _ Hauth);
    unfold query, aggregate, insert, update, delete, run_command, sample,
      try_except, bind, lift;
    rewrite Hjson, Hdata; cbn;
    cbn in Hin;
    repeat (destruct Hin as [<-|Hin]; [rewrite Hfalsy; cbn;
                                       rewrite ?orb_true_r; reflexivity|]);
    destruct Hin.
Qed.

(** X10.  On the three shard-scoped routes, a shard identifier that the
    metadata does not know is answered 404 with the identifier in the
    message, whatever the body of the request; the one call made is the
    lookup of the shard, and no client is built for a shard. *)
Theorem unknown_shard_404
    (ep : endpoint) (shard_id : string) (r : request) (st st1 : state)
    (client : conn) :
  named_shard ep = Some shard_id ->
  authorized API_KEY r ->
  get_client w MONGO_URI st = (Ok client, st1) ->
  w_find_one_shard w (conn_uri client) shard_id = Ok None ->
  serve w MONGO_URI API_KEY ep r st
  = (Json 404 (error_body ("Shard '" ++ shard_id ++ "' not found")),
     {| st_client := st_client st1; st_next := st_next st1;
        st_log := (st_log st1 ++ [EvCall client "find_one"])%list |}).
Proof.
  intros Hep Hauth Hclient Hfind.
  destruct ep; try discriminate Hep; injection Hep as <-; cbn [serve];
    rewrite (require_api_key_authorized _ _ _ Hauth);
    unfold query_shard, list_shard_databases, list_shard_collections,
      try_except, bind;
    rewrite Hclient;
    unfold find_one_shard, call, bind, log_event, lift;
    now rewrite Hfind.
Qed.

(** X11.  On the ten routes that start with [get_client()], when no
    primary client exists yet and the driver refuses [MONGO_URI] with a
    [PyMongoError], the answer is 500 with the driver's message, and the
    process is left as it was, [_client] unset. *)
Theorem refused_primary_500
    (ep : endpoint) (r : request) (st : state) (msg : string) :
  connects_first ep = true ->
  authorized API_KEY r ->
  st_client st = None ->
  w_mongo_client w MONGO_URI = Raise (PyMongoError msg) ->
  serve w MONGO_URI API_KEY ep r st = (Json 500 (error_body msg), st).
Proof.
  intros Hep Hauth Hnone Hraise.
  assert (G : get_client w MONGO_URI st = (Raise (PyMongoError msg), st)).
  { unfold get_client, MongoClient. now rewrite Hnone, Hraise. }
  destruct ep; try discriminate Hep; cbn [serve];
    rewrite (require_api_key_authorized _ _ _ Hauth);
    unfold list_databases, list_collections, count_documents, list_indexes,
      list_shards, list_available_databases, list_available_collections,
      query_shard, list_shard_databases, list_shard_collections,
      try_except, try_except_pymongo, bind;
    now rewrite G.
Qed.

End RefusalFacts.

Lemma missing_body_refused_witness :
  serve five_documents primary_uri "k" Update (with_key (Some "k") (VDict []))
    initial_state
  = (Json 400 (error_body "Request body required"), initial_state).
Proof.
  apply (missing_body_refused five_documents primary_uri "k" Update
           "Update error: " _ _ (VDict [])).
  - reflexivity.
  - split; [reflexivity|discriminate].
  - reflexivity.
  - reflexivity.
Defined.

Lemma unreadable_body_refused_witness :
  serve five_documents primary_uri "k" Insert
    (with_key (Some "k") (VList [VInt 1])) initial_state
  = (Json 400
       (error_body "Insert error: 'list' object has no attribute 'get'"),
     initial_state).
Proof.
  refine (proj2 (unreadable_body_refused five_documents primary_uri "k" Insert
                   "Insert error: " (with_key (Some "k") (VList [VInt 1]))
                   initial_state eq_refl _) (VList [VInt 1])
            eq_refl eq_refl eq_refl).
  split; [reflexivity|discriminate].
Defined.

Lemma missing_field_refused_witness :
  serve five_documents primary_uri "k" Query
    (with_key (Some "k") (VDict [("database", VStr "d")])) initial_state
  = (Json 400 (error_body "database and collection are required"),
     initial_state).
Proof.
  apply (missing_field_refused five_documents primary_uri "k" Query
           ["database"; "collection"] _ _ _ [("database", VStr "d")]
           "collection").
  - reflexivity.
  - split; [reflexivity|discriminate].
  - reflexivity.
  - discriminate.
  - right. now left.
  - reflexivity.
Defined.

Lemma unknown_shard_404_witness :
  serve five_documents primary_uri "k" (ListShardDatabases "unknown")
    (with_key (Some "k") VNone) initial_state
  = (Json 404 (error_body "Shard 'unknown' not found"),
     {| st_client := Some primary_client; st_next := 1;
        st_log := [EvOpen primary_client; EvCall primary_client "find_one"] |}).
Proof.
  apply (unknown_shard_404 five_documents primary_uri "k"
           (ListShardDatabases "unknown") "unknown" _ initial_state connected
           primary_client).
  - reflexivity.
  - split; [reflexivity|discriminate].
  - reflexivity.
  - reflexivity.
Defined.

Lemma refused_primary_500_witness :
  serve primary_refused primary_uri "k" ListShards (with_key (Some "k") VNone)
    initial_state
  = (Json 500 (error_body "connection refused"), initial_state).
Proof.
  apply (refused_primary_500 primary_refused primary_uri "k" ListShards).
  - reflexivity.
  - split; [reflexivity|discriminate].
  - reflexivity.
  - reflexivity.
Defined.

(** ** Listings *)

Section ListingFacts.
Variable w : World.
Variables MONGO_URI : string.
Import Py.

Lemma mapM_collection_entry fields c db names st :
  exists entries st',
    mapM (collection_entry w fields c db) names st = (Ok entries, st')
    /\ map entry_name entries = map VStr names
    /\ forall coll e,
         In coll names ->
         w_coll_stats w (conn_uri c) db coll = Raise e ->
         In (VDict [("name", VStr coll)]) entries.
Proof.
  revert st. induction names as [|n names IH]; intros st; cbn.
  - exists [], st. repeat split. intros coll e [].
  - unfold bind at 1.
    assert (E : exists entry st1,
               collection_entry w fields c db n st = (Ok entry, st1)
               /\ entry_name entry = VStr n
               /\ forall e, w_coll_stats w (conn_uri c) db n = Raise e ->
                            entry = VDict [("name", VStr n)]).
    { unfold collection_entry, call, bind, log_event, lift. cbn.
      destruct (w_coll_stats w (conn_uri c) db n) as [stats|e0];
        eexists _, _; repeat split; try discriminate. }
    destruct E as (entry & st1 & -> & Hname & Hfail).
    destruct (IH st1) as (entries & st' & Hrun & Hnames & Hfails).
    unfold bind. rewrite Hrun. cbn.
    exists (entry :: entries), st'. split; [reflexivity|]. split.
    + cbn. now rewrite Hname, Hnames.
    + intros coll e [<-|Hin] Hraise.
      * left. now apply (Hfail e).
      * right. now apply (Hfails coll e).
Qed.

(** X12.  [GET /databases/<db>/collections] is best effort about the
    statistics: once the collection names are listed, the answer is 200
    with one entry per collection, in the order of the listing and under
    its name, whether or not [collStats] succeeds; a collection whose
    statistics cannot be read is listed by its name alone. *)
Theorem list_collections_best_effort
    (db : string) (st st1 : state) (client : conn) (names : list string) :
  get_client w MONGO_URI st = (Ok client, st1) ->
  w_database w (VStr db) = Ok tt ->
  w_list_collection_names w (conn_uri client) (VStr db) = Ok names ->
  exists entries,
    fst (list_collections w MONGO_URI db st)
    = jsonify (VDict [("database", VStr db); ("collections", VList entries)])
    /\ map entry_name entries = map VStr names
    /\ forall coll e,
         In coll names ->
         w_coll_stats w (conn_uri client) (VStr db) coll = Raise e ->
         In (VDict [("name", VStr coll)]) entries.
Proof.
  intros Hclient Hdb Hnames.
  unfold list_collections, try_except_pymongo, bind. rewrite Hclient.
  unfold get_database, lift. rewrite Hdb.
  unfold list_collection_names, call, bind, log_event, lift. cbn.
  rewrite Hnames.
  match goal with
  | |- context [mapM ?f names ?s] =>
      destruct (mapM_collection_entry ["count"; "size"; "avgObjSize"] client
                  (VStr db) names s) as (entries & st' & -> & Hn & Hf)
  end.
  exists entries. cbn. auto.
Qed.

End ListingFacts.

Lemma list_collections_best_effort_witness :
  exists entries,
    fst (list_collections five_documents primary_uri "app" initial_state)
    = jsonify (VDict [("database", VStr "app"); ("collections", VList entries)])
    /\ map entry_name entries = map VStr ["users"; "orders"]
    /\ forall coll e,
         In coll ["users"; "orders"] ->
         w_coll_stats five_documents (conn_uri primary_client) (VStr "app") coll
         = Raise e ->
         In (VDict [("name", VStr coll)]) entries.
Proof.
  exact (list_collections_best_effort five_documents primary_uri "app"
           initial_state connected primary_client ["users"; "orders"]
           eq_refl eq_refl eq_refl).
Defined.

(** ** Serialization *)

Section SerializeFacts.
Variable w : World.

(** X13.  [serialize_response] changes nothing in data that holds no
    extended type, at any depth: only [ObjectId], dates and the like are
    rewritten. *)
Theorem serialize_response_plain :
  forall v, plain v = true -> serialize_response w v = v.
Proof.
  fix IH 1. intros [| b | n | s | l | kvs | tag payload]; cbn; intros H;
    try reflexivity; try discriminate.
  - f_equal. induction l as [|x l IHl]; cbn in *; [reflexivity|].
    apply andb_prop in H. destruct H as [H1 H2].
    rewrite (IH x H1), (IHl H2). reflexivity.
  - f_equal. induction kvs as [|[k x] kvs IHl]; cbn in *; [reflexivity|].
    apply andb_prop in H. destruct H as [H1 H2].
    rewrite (IH x H1), (IHl H2). reflexivity.
Qed.

End SerializeFacts.

Lemma serialize_response_plain_witness :
  serialize_response five_documents
    (VList [VDict [("id", VStr "A"); ("online", VBool true); ("error", VNone)]])
  = VList [VDict [("id", VStr "A"); ("online", VBool true); ("error", VNone)]].
Proof.
  apply (serialize_response_plain five_documents). reflexivity.
Defined.

(** ** The fan-out, shard by shard *)

Section ProbeFacts.
Variable w : World.
Variables MONGO_URI : string.
Import Py.

Lemma is_online_detail
    (result : shard -> bool -> list string -> value -> value) sh o :
  (forall online names error,
     is_online (result sh online names error) = online) ->
  is_online (detail result sh o) = completed o.
Proof.
  intros H. destruct o as [e|names [[]|e]]; cbn; apply H.
Qed.

Lemma is_online_test_step sh :
  is_online (snd (test_step w MONGO_URI sh tt)) = tested w MONGO_URI sh.
Proof.
  unfold test_step, tested. now destruct (test_failure w MONGO_URI sh).
Qed.

Lemma filter_map_length {A B} (f : A -> B) (p : B -> bool) (l : list A) :
  List.length (filter p (map f l))
  = List.length (filter (fun a => p (f a)) l).
Proof.
  induction l as [|a l IH]; cbn; [reflexivity|].
  destruct (p (f a)); cbn; now rewrite IH.
Qed.

Lemma count_online_map (f : shard -> value) (p : shard -> bool) shards :
  (forall sh, is_online (f sh) = p sh) ->
  count_online (map f shards) = len (filter p shards)
  /\ count_offline (map f shards) = len (filter (fun sh => negb (p sh)) shards).
Proof.
  intros H. unfold count_online, count_offline, len.
  rewrite !filter_map_length. split; do 3 f_equal;
    apply filter_ext; intros sh; now rewrite H.
Qed.

(** X14.  In the three fan-out answers [online_shards] counts the shards
    whose probe ran to its end, closing included; in [/shards],
    [offline_shards] counts the others. *)
Theorem online_shards_counts_completed_probes
    (st st1 : state) (client : conn) (shards : list shard) :
  get_client w MONGO_URI st = (Ok client, st1) ->
  w_find_shards w (conn_uri client) = Ok shards ->
  (exists details,
     fst (list_shards w MONGO_URI st)
     = jsonify (VDict [
         ("total_shards", len shards);
         ("online_shards", len (filter (tested w MONGO_URI) shards));
         ("offline_shards",
           len (filter (fun sh => negb (tested w MONGO_URI sh)) shards));
         ("shards", details)]))
  /\
  (exists merged details,
     fst (list_available_databases w MONGO_URI st)
     = jsonify (VDict [
         ("total_shards", len shards);
         ("online_shards",
           len (filter (fun sh => completed (databases_outcome w MONGO_URI sh))
                  shards));
         ("databases", merged);
         ("shard_details", details)]))
  /\
  (forall db,
   exists merged details,
     fst (list_available_collections w MONGO_URI db st)
     = jsonify (VDict [
         ("database", VStr db);
         ("collections", merged);
         ("total_shards", len shards);
         ("online_shards",
           len (filter
                  (fun sh => completed (collections_outcome w MONGO_URI db sh))
                  shards));
         ("shard_details", details)])).
Proof.
  intros Hclient Hshards. split; [|split].
  - rewrite (list_shards_run w MONGO_URI st client st1 shards Hclient Hshards).
    destruct (count_online_map (fun sh => snd (test_step w MONGO_URI sh tt))
                (tested w MONGO_URI) shards is_online_test_step) as [-> ->].
    unfold len at 1. rewrite length_map. eexists. reflexivity.
  - rewrite (list_available_databases_run w MONGO_URI st client st1 shards
               Hclient Hshards).
    destruct (count_online_map
                (fun sh => detail databases_result sh
                             (databases_outcome w MONGO_URI sh))
                (fun sh => completed (databases_outcome w MONGO_URI sh)) shards)
      as [-> _].
    { intros sh. now apply is_online_detail. }
    eexists _, _. reflexivity.
  - intros db.
    rewrite (list_available_collections_run w MONGO_URI db st client st1 shards
               Hclient Hshards).
    destruct (count_online_map
                (fun sh => detail collections_result sh
                             (collections_outcome w MONGO_URI db sh))
                (fun sh => completed (collections_outcome w MONGO_URI db sh))
                shards)
      as [-> _].
    { intros sh. now apply is_online_detail. }
    eexists _, _. reflexivity.
Qed.

(** X15.  [shard_details] follows the shard metadata: its i-th entry is
    the entry of the i-th shard, and that entry is decided by the probe
    of that shard alone, so that a failing shard changes the entry of no
    other shard. *)
Theorem shard_details_follow_metadata
    (st st1 : state) (client : conn) (shards : list shard) :
  get_client w MONGO_URI st = (Ok client, st1) ->
  w_find_shards w (conn_uri client) = Ok shards ->
  (exists total online offline details,
     fst (list_shards w MONGO_URI st)
     = jsonify (VDict [("total_shards", total);
                       ("online_shards", online);
                       ("offline_shards", offline);
                       ("shards", serialize_response w (VList details))])
     /\ forall i sh,
          nth_error shards i = Some sh ->
          nth_error details i
          = Some (match test_failure w MONGO_URI sh with
                  | Some e => shard_info sh false (VStr (str_exn e))
                  | None => shard_info sh true VNone
                  end))
  /\
  (exists total online merged details,
     fst (list_available_databases w MONGO_URI st)
     = jsonify (VDict [("total_shards", total);
                       ("online_shards", online);
                       ("databases", merged);
                       ("shard_details", VList details)])
     /\ forall i sh,
          nth_error shards i = Some sh ->
          nth_error details i
          = Some (detail databases_result sh (databases_outcome w MONGO_URI sh)))
  /\
  (forall db,
   exists merged total online details,
     fst (list_available_collections w MONGO_URI db st)
     = jsonify (VDict [("database", VStr db);
                       ("collections", merged);
                       ("total_shards", total);
                       ("online_shards", online);
                       ("shard_details", VList details)])
     /\ forall i sh,
          nth_error shards i = Some sh ->
          nth_error details i
          = Some (detail collections_result sh
                    (collections_outcome w MONGO_URI db sh))).
Proof.
  intros Hclient Hshards. split; [|split].
  - rewrite (list_shards_run w MONGO_URI st client st1 shards Hclient Hshards).
    eexists _, _, _, _. split; [reflexivity|].
    intros i sh Hi. rewrite nth_error_map, Hi. reflexivity.
  - rewrite (list_available_databases_run w MONGO_URI st client st1 shards
               Hclient Hshards).
    eexists _, _, _, _. split; [reflexivity|].
    intros i sh Hi. rewrite nth_error_map, Hi. reflexivity.
  - intros db.
    rewrite (list_available_collections_run w MONGO_URI db st client st1 shards
               Hclient Hshards).
    eexists _, _, _, _. split; [reflexivity|].
    intros i sh Hi. rewrite nth_error_map, Hi. reflexivity.
Qed.

Lemma test_shard_events sh u st :
  exists events,
    st_log (snd (test_shard w MONGO_URI sh u st)) = (st_log st ++ events)%list
    /\ List.length (filter is_open events)
       = (if connectable w MONGO_URI sh then 1 else 0)%nat
    /\ List.length (filter is_close events)
       = (if answers_ping w MONGO_URI sh then 1 else 0)%nat
    /\ forall c, In (EvClose c) events -> In (EvOpen c) events.
Proof.
  unfold test_shard, answers_ping, connectable, probe_uri, MongoClient, ping,
    close, call, bind, log_event, lift.
  destruct (w_mongo_client w _); cbn.
  - destruct (w_ping w _); cbn.
    + destruct (w_close w _); cbn; rewrite <- !app_assoc; cbn;
        eexists; (split; [reflexivity|]); cbn; repeat split;
        intros c [H|[H|[H|[]]]]; try discriminate; injection H as <-;
        now left.
    + rewrite <- !app_assoc; cbn.
      eexists; (split; [reflexivity|]); cbn; repeat split.
      intros c [H|[H|[]]]; discriminate.
  - exists []. rewrite app_nil_r. cbn. repeat split. intros c [].
Qed.

Lemma for_each_test_shard_events shards u entries st :
  exists events,
    st_log (snd (for_each_shard (test_shard w MONGO_URI) shards u entries st))
    = (st_log st ++ events)%list
    /\ List.length (filter is_open events)
       = List.length (filter (connectable w MONGO_URI) shards)
    /\ List.length (filter is_close events)
       = List.length (filter (answers_ping w MONGO_URI) shards)
    /\ forall c, In (EvClose c) events -> In (EvOpen c) events.
Proof.
  revert u entries st.
  induction shards as [|sh shards IH]; intros u entries st; cbn.
  - exists []. rewrite app_nil_r. cbn. repeat split. intros c [].
  - destruct (test_shard_events sh u st) as (ev1 & L1 & O1 & C1 & S1).
    destruct (test_shard w MONGO_URI sh u st) as [[u' e] st1]. cbn in L1.
    destruct (IH u' (entries ++ [e])%list st1) as (ev2 & L2 & O2 & C2 & S2).
    exists (ev1 ++ ev2)%list. split; [|split; [|split]].
    + rewrite L2, L1. now rewrite app_assoc.
    + rewrite filter_app, length_app, O1, O2.
      now destruct (connectable w MONGO_URI sh).
    + rewrite filter_app, length_app, C1, C2.
      now destruct (answers_ping w MONGO_URI sh).
    + intros c H. apply in_app_iff in H. apply in_app_iff.
      destruct H; [left; now apply S1|right; now apply S2].
Qed.

(** X16.  [GET /shards] builds one client for every shard whose
    connection string the driver accepts, and calls [close()] on those
    whose ping succeeded and on no other client: the clients of the shards
    whose ping raised stay open. *)
Theorem list_shards_closes_answering_shards
    (st st1 : state) (client : conn) (shards : list shard) :
  get_client w MONGO_URI st = (Ok client, st1) ->
  w_find_shards w (conn_uri client) = Ok shards ->
  exists events,
    st_log (snd (list_shards w MONGO_URI st))
    = (st_log st1 ++ EvCall client "find" :: events)%list
    /\ List.length (filter is_open events)
       = List.length (filter (connectable w MONGO_URI) shards)
    /\ List.length (filter is_close events)
       = List.length (filter (answers_ping w MONGO_URI) shards)
    /\ forall c, In (EvClose c) events -> In (EvOpen c) events.
Proof.
  intros Hclient Hshards.
  unfold list_shards, try_except, bind. rewrite Hclient.
  unfold find_shards, call, bind, log_event, lift. rewrite Hshards.
  unfold total.
  match goal with
  | |- context [for_each_shard ?p shards tt [] ?s] =>
      destruct (for_each_test_shard_events shards tt [] s)
        as (events & L & O & C & S);
      destruct (for_each_shard p shards tt [] s) as [[u rs] st2]
  end.
  cbn in L |- *. exists events. rewrite L, <- app_assoc. cbn. auto.
Qed.

End ProbeFacts.

Lemma online_shards_counts_completed_probes_witness :
  exists details,
    fst (list_shards one_shard_down primary_uri initial_state)
    = jsonify (VDict [
        ("total_shards", VInt 2);
        ("online_shards", VInt 1);
        ("offline_shards", VInt 1);
        ("shards", details)]).
Proof.
  exact (proj1 (online_shards_counts_completed_probes one_shard_down primary_uri
                  initial_state connected primary_client [shard_A; shard_B]
                  eq_refl eq_refl)).
Defined.

Lemma shard_details_follow_metadata_witness :
  exists total online merged details,
    fst (list_available_databases one_shard_down primary_uri initial_state)
    = jsonify (VDict [("total_shards", total);
                      ("online_shards", online);
                      ("databases", merged);
                      ("shard_details", VList details)])
    /\ forall i sh,
         nth_error [shard_A; shard_B] i = Some sh ->
         nth_error details i
         = Some (detail databases_result sh
                   (databases_outcome one_shard_down primary_uri sh)).
Proof.
  exact (proj1 (proj2 (shard_details_follow_metadata one_shard_down primary_uri
                         initial_state connected primary_client
                         [shard_A; shard_B] eq_refl eq_refl))).
Defined.

Lemma list_shards_closes_answering_shards_witness :
  exists events,
    st_log (snd (list_shards one_shard_down primary_uri initial_state))
    = (st_log connected ++ EvCall primary_client "find" :: events)%list
    /\ List.length (filter is_open events) = 2%nat
    /\ List.length (filter is_close events) = 1%nat
    /\ forall c, In (EvClose c) events -> In (EvOpen c) events.
Proof.
  exact (list_shards_closes_answering_shards one_shard_down primary_uri
           initial_state connected primary_client [shard_A; shard_B]
           eq_refl eq_refl).
Defined.

(** ** Writes, commands and the size of a find *)

Section OperationFacts.
Variable w : World.
Variables MONGO_URI : string.
Import Py.

(** X17.  An accepted [/update] makes exactly one write call:
    [update_many] when ["many"] is truthy and [update_one] otherwise, in
    particular when ["many"] is absent.  The answer carries the counts of
    the driver, and an [upserted_id] only when the driver reports one. *)
Theorem update_dispatch
    (kvs : list (string * value)) (r : request) (st st1 : state)
    (client : conn) (filter_query update_doc : value)
    (result : update_result) :
  let db_name := dict_get kvs "database" VNone in
  let coll_name := dict_get kvs "collection" VNone in
  let many := truthy (dict_get kvs "many" (VBool false)) in
  req_json r = Ok (VDict kvs) ->
  truthy db_name = true ->
  truthy coll_name = true ->
  truthy (dict_get kvs "update" VNone) = true ->
  get_client w MONGO_URI st = (Ok client, st1) ->
  w_database w db_name = Ok tt ->
  w_collection w db_name coll_name = Ok tt ->
  parse_json_extended w (dict_get kvs "filter" (VDict [])) = Ok filter_query ->
  parse_json_extended w (dict_get kvs "update" VNone) = Ok update_doc ->
  w_update w (conn_uri client) db_name coll_name many filter_query update_doc
    (dict_get kvs "upsert" (VBool false)) = Ok result ->
  update w MONGO_URI r st
  = (jsonify (VDict [
       ("database", db_name);
       ("collection", coll_name);
       ("matched_count", VInt (matched_count result));
       ("modified_count", VInt (modified_count result));
       ("upserted_id",
         if truthy (upserted_id result)
         then serialize_response w (upserted_id result) else VNone)]),
     {| st_client := st_client st1; st_next := st_next st1;
        st_log :=
          (st_log st1
             ++ [EvCall client (if many then "update_many" else "update_one")])%list
     |})
  /\ (dict_lookup kvs "many" = None -> many = false).
Proof.
  intros db_name coll_name many Hjson Hdb Hcoll Hupd Hclient Hdbok Hcollok
    Hf Hu Hw.
  assert (Hdata : truthy (VDict kvs) = true).
  { destruct kvs; [discriminate Hdb|reflexivity]. }
  split.
  - unfold update, try_except, bind, lift. rewrite Hjson, Hdata. cbn.
    fold db_name coll_name. rewrite Hdb, Hcoll, Hupd. cbn. rewrite Hclient.
    unfold get_collection, bind, lift. rewrite Hdbok, Hcollok. cbn.
    rewrite Hf, Hu. unfold call, bind, log_event, lift. cbn.
    fold many. rewrite Hw. reflexivity.
  - intros H. unfold many. now rewrite (dict_get_absent _ _ _ H).
Qed.

(** X18.  An accepted [/delete] makes exactly one write call:
    [delete_many] when ["many"] is truthy and [delete_one] otherwise, in
    particular when ["many"] is absent; an absent ["filter"] is the empty
    filter.  The answer carries the count of the driver. *)
Theorem delete_dispatch
    (kvs : list (string * value)) (r : request) (st st1 : state)
    (client : conn) (filter_query : value) (deleted : Z) :
  let db_name := dict_get kvs "database" VNone in
  let coll_name := dict_get kvs "collection" VNone in
  let many := truthy (dict_get kvs "many" (VBool false)) in
  req_json r = Ok (VDict kvs) ->
  truthy db_name = true ->
  truthy coll_name = true ->
  get_client w MONGO_URI st = (Ok client, st1) ->
  w_database w db_name = Ok tt ->
  w_collection w db_name coll_name = Ok tt ->
  parse_json_extended w (dict_get kvs "filter" (VDict [])) = Ok filter_query ->
  w_delete w (conn_uri client) db_name coll_name many filter_query = Ok deleted ->
  delete w MONGO_URI r st
  = (jsonify (VDict [("database", db_name);
                     ("collection", coll_name);
                     ("deleted_count", VInt deleted)]),
     {| st_client := st_client st1; st_next := st_next st1;
        st_log :=
          (st_log st1
             ++ [EvCall client (if many then "delete_many" else "delete_one")])%list
     |})
  /\ (dict_lookup kvs "many" = None -> many = false)
  /\ (dict_lookup kvs "filter" = None ->
      parse_json_extended w (VDict []) = Ok filter_query).
Proof.
  intros db_name coll_name many Hjson Hdb Hcoll Hclient Hdbok Hcollok Hf Hw.
  assert (Hdata : truthy (VDict kvs) = true).
  { destruct kvs; [discriminate Hdb|reflexivity]. }
  split; [|split].
  - unfold delete, try_except, bind, lift. rewrite Hjson, Hdata. cbn.
    fold db_name coll_name. rewrite Hdb, Hcoll. cbn. rewrite Hclient.
    unfold get_collection, bind, lift. rewrite Hdbok, Hcollok. cbn.
    rewrite Hf. unfold call, bind, log_event, lift. cbn.
    fold many. rewrite Hw. reflexivity.
  - intros H. unfold many. now rewrite (dict_get_absent _ _ _ H).
  - intros H. rewrite (dict_get_absent _ _ _ H) in Hf. exact Hf.
Qed.

(** X19.  [/command] runs on the database [admin] when the body names
    none, and answers with the serialized result of the driver. *)
Theorem run_command_default_database
    (kvs : list (string * value)) (r : request) (st st1 : state)
    (client : conn) (command result : value) :
  req_json r = Ok (VDict kvs) ->
  dict_lookup kvs "database" = None ->
  truthy (dict_get kvs "command" VNone) = true ->
  get_client w MONGO_URI st = (Ok client, st1) ->
  w_database w (VStr "admin") = Ok tt ->
  parse_json_extended w (dict_get kvs "command" VNone) = Ok command ->
  w_command w (conn_uri client) (VStr "admin") command = Ok result ->
  fst (run_command w MONGO_URI r st)
  = jsonify (VDict [("database", VStr "admin");
                    ("result", serialize_response w result)]).
Proof.
  intros Hjson Hnone Hcmd Hclient Hdbok Hparse Hrun.
  assert (Hdata : truthy (VDict kvs) = true).
  { destruct kvs; [discriminate Hcmd|reflexivity]. }
  unfold run_command, try_except, bind, lift. rewrite Hjson, Hdata. cbn.
  rewrite (dict_get_absent _ _ _ Hnone), Hcmd. cbn. rewrite Hclient.
  unfold get_database, lift. rewrite Hdbok, Hparse.
  unfold call, bind, log_event, lift. cbn. now rewrite Hrun.
Qed.




End OperationFacts.

Lemma update_dispatch_witness :
  update five_documents primary_uri
    (with_key (Some "k")
       (VDict [("database", VStr "d"); ("collection", VStr "c");
               ("update", VDict [("$set", VDict [("a", VInt 1)])])]))
    initial_state
  = (jsonify (VDict [("database", VStr "d");
                     ("collection", VStr "c");
                     ("matched_count", VInt 0);
                     ("modified_count", VInt 0);
                     ("upserted_id", VNone)]),
     {| st_client := Some primary_client; st_next := 1;
        st_log := [EvOpen primary_client; EvCall primary_client "update_one"] |}).
Proof.
  exact (proj1 (update_dispatch five_documents primary_uri
                  [("database", VStr "d"); ("collection", VStr "c");
                   ("update", VDict [("$set", VDict [("a", VInt 1)])])]
                  (with_key (Some "k")
                     (VDict [("database", VStr "d"); ("collection", VStr "c");
                             ("update", VDict [("$set", VDict [("a", VInt 1)])])]))
                  initial_state connected primary_client (VDict [])
                  (VDict [("$set", VDict [("a", VInt 1)])])
                  {| matched_count := 0; modified_count := 0;
                     upserted_id := VNone |}
                  eq_refl eq_refl eq_refl eq_refl eq_refl eq_refl eq_refl
                  eq_refl eq_refl eq_refl)).
Defined.

Lemma delete_dispatch_witness :
  delete five_documents primary_uri
    (with_key (Some "k")
       (VDict [("database", VStr "d"); ("collection", VStr "c");
               ("many", VBool true)]))
    initial_state
  = (jsonify (VDict [("database", VStr "d");
                     ("collection", VStr "c");
                     ("deleted_count", VInt 0)]),
     {| st_client := Some primary_client; st_next := 1;
        st_log := [EvOpen primary_client; EvCall primary_client "delete_many"] |}).
Proof.
  exact (proj1 (delete_dispatch five_documents primary_uri
                  [("database", VStr "d"); ("collection", VStr "c");
                   ("many", VBool true)]
                  (with_key (Some "k")
                     (VDict [("database", VStr "d"); ("collection", VStr "c");
                             ("many", VBool true)]))
                  initial_state connected primary_client (VDict []) 0%Z
                  eq_refl eq_refl eq_refl eq_refl eq_refl eq_refl eq_refl
                  eq_refl)).
Defined.

Lemma run_command_default_database_witness :
  fst (run_command five_documents primary_uri
         (with_key (Some "k") (VDict [("command", VDict [("ping", VInt 1)])]))
         initial_state)
  = jsonify (VDict [("database", VStr "admin"); ("result", VNone)]).
Proof.
  exact (run_command_default_database five_documents primary_uri
           [("command", VDict [("ping", VInt 1)])]
           (with_key (Some "k") (VDict [("command", VDict [("ping", VInt 1)])]))
           initial_state connected primary_client
           (VDict [("ping", VInt 1)]) VNone
           eq_refl eq_refl eq_refl eq_refl eq_refl eq_refl eq_refl).
Defined.


(** ** Outcomes of a find *)

Section OutcomeFacts.
Variable w : World.
Variables MONGO_URI : string.
Import Py.

Lemma find_documents_outcome (col : collection) kvs filter_query (st : state) :
  find_well_formed w kvs filter_query ->
  find_documents w col (VDict kvs) st
  = (match w_find_docs w (conn_uri (col_conn col)) (col_db col) (col_name col)
             filter_query (dict_get kvs "projection" VNone)
             (if truthy (dict_get kvs "sort" VNone)
              then Some (dict_get kvs "sort" VNone) else None) with
     | Ok selected =>
         Ok (returned_documents (dict_get kvs "skip" (VInt 0))
               (dict_get kvs "limit" (VInt 100)) selected)
     | Raise e => Raise e
     end,
     {| st_client := st_client st; st_next := st_next st;
        st_log := (st_log st ++ [EvCall (col_conn col) "find"])%list |}).
Proof.
  intros (Hparse & Hargs & Hsort & Hskip & Hlimit).
  destruct (w_find_docs w (conn_uri (col_conn col)) (col_db col) (col_name col)
              filter_query (dict_get kvs "projection" VNone)
              (if truthy (dict_get kvs "sort" VNone)
               then Some (dict_get kvs "sort" VNone) else None))
    as [selected|e] eqn:Hdocs.
  - apply find_documents_returns. exists filter_query. auto 10.
  - unfold find_documents, bind, lift, get. cbn.
    rewrite Hparse. unfold find, bind, lift. rewrite Hargs. cbn.
    set (sort := dict_get kvs "sort" VNone) in *.
    set (skip := dict_get kvs "skip" (VInt 0)) in *.
    set (limit := dict_get kvs "limit" (VInt 100)) in *.
    destruct (truthy sort) eqn:Ts;
      [unfold cursor_sort, bind, lift; rewrite (Hsort eq_refl); cbn|cbn];
      (destruct (truthy skip) eqn:Tk;
       [destruct (Hskip eq_refl) as (n & Hn & Hpos & Hfits);
        unfold cursor_skip; rewrite Hn; cbn [as_int];
        replace (n <? 0)%Z with false by (symmetry; now apply Z.ltb_ge);
        apply Z.leb_le in Hfits; cbn|cbn]);
      (destruct (truthy limit) eqn:Tl;
       [destruct (Hlimit eq_refl) as (m & Hm & Hfitm); unfold cursor_limit;
        rewrite Hm; apply Z.leb_le in Hfitm; cbn|cbn]);
      unfold list_cursor, encodable; cbn [cur_skip cur_limit cur_collection];
      rewrite ?Hfits, ?Hfitm; cbn [andb];
      unfold call, bind, log_event, lift; cbn; rewrite Hdocs;
      reflexivity.
Qed.

(** X21.  In [/query], a filter whose extended JSON cannot be decoded is
    answered 400 with the message of the decoder behind "Query error: ",
    and no call reaches the deployment; a well-formed find that the
    deployment fails with a [PyMongoError] is answered 500 with the
    message of the driver, unchanged. *)
Theorem query_failures
    (kvs : list (string * value)) (r : request) (st st1 : state)
    (client : conn) :
  let db_name := dict_get kvs "database" VNone in
  let coll_name := dict_get kvs "collection" VNone in
  req_json r = Ok (VDict kvs) ->
  truthy db_name = true ->
  truthy coll_name = true ->
  get_client w MONGO_URI st = (Ok client, st1) ->
  w_database w db_name = Ok tt ->
  w_collection w db_name coll_name = Ok tt ->
  (forall msg,
     parse_json_extended w (dict_get kvs "filter" (VDict []))
     = Raise (OtherException msg) ->
     query w MONGO_URI r st
     = (Json 400 (error_body ("Query error: " ++ msg)), st1))
  /\
  (forall filter_query msg,
     find_well_formed w kvs filter_query ->
     w_find_docs w (conn_uri client) db_name coll_name filter_query
       (dict_get kvs "projection" VNone)
       (if truthy (dict_get kvs "sort" VNone)
        then Some (dict_get kvs "sort" VNone) else None)
     = Raise (PyMongoError msg) ->
     query w MONGO_URI r st
     = (Json 500 (error_body msg),
        {| st_client := st_client st1; st_next := st_next st1;
           st_log := (st_log st1 ++ [EvCall client "find"])%list |})).
Proof.
  intros db_name coll_name Hjson Hdb Hcoll Hclient Hdbok Hcollok.
  assert (Hdata : truthy (VDict kvs) = true).
  { destruct kvs; [discriminate Hdb|reflexivity]. }
  split.
  - intros msg Hparse.
    unfold query, try_except, bind, lift. rewrite Hjson, Hdata.
    cbn -[find_documents].
    fold db_name coll_name. rewrite Hdb, Hcoll. cbn -[find_documents].
    rewrite Hclient.
    unfold get_collection, bind, lift. rewrite Hdbok, Hcollok.
    cbn -[find_documents].
    unfold find_documents, bind, lift, get. cbn. now rewrite Hparse.
  - intros filter_query msg Hwf Hraise.
    unfold query, try_except, bind, lift. rewrite Hjson, Hdata.
    cbn -[find_documents].
    fold db_name coll_name. rewrite Hdb, Hcoll. cbn -[find_documents].
    rewrite Hclient.
    unfold get_collection, bind, lift. rewrite Hdbok, Hcollok.
    cbn -[find_documents].
    rewrite (find_documents_outcome
               {| col_conn := client; col_db := db_name; col_name := coll_name |}
               kvs filter_query st1 Hwf).
    cbn. now rewrite Hraise.
Qed.

(** X22.  When [/shard/<shard_id>/query] succeeds, the primary client is
    used for the lookup of the shard alone, and one new client is built
    for the shard, used for the find and closed before the answer. *)
Theorem query_shard_closes_its_client
    (kvs : list (string * value)) (shard_id : string) (sh : shard)
    (r : request) (st st1 : state) (client : conn) (selected : list value) :
  let db_name := dict_get kvs "database" VNone in
  let coll_name := dict_get kvs "collection" VNone in
  let uri := ShardDirectory.shard_uri "5000" MONGO_URI (host_str sh) in
  let shard_client := {| conn_id := st_next st1; conn_uri := uri |} in
  req_json r = Ok (VDict kvs) ->
  truthy db_name = true ->
  truthy coll_name = true ->
  get_client w MONGO_URI st = (Ok client, st1) ->
  w_find_one_shard w (conn_uri client) shard_id = Ok (Some sh) ->
  w_mongo_client w uri = Ok tt ->
  w_database w db_name = Ok tt ->
  w_collection w db_name coll_name = Ok tt ->
  find_accepted w uri db_name coll_name kvs selected ->
  w_close w uri = Ok tt ->
  snd (query_shard w MONGO_URI shard_id r st)
  = {| st_client := st_client st1;
       st_next := S (st_next st1);
       st_log :=
         (st_log st1
            ++ [EvCall client "find_one"; EvOpen shard_client;
                EvCall shard_client "find"; EvClose shard_client])%list |}.
Proof.
  intros db_name coll_name uri shard_client Hjson Hdb Hcoll Hclient Hfound
    Hconn Hdbok Hcollok Hacc Hclose.
  assert (Hdata : truthy (VDict kvs) = true).
  { destruct kvs; [discriminate Hdb|reflexivity]. }
  unfold query_shard, try_except, bind. rewrite Hclient.
  unfold find_one_shard, call, bind, log_event, lift. rewrite Hfound.
  cbn -[find_documents].
  fold uri. unfold MongoClient. rewrite Hconn. cbn -[find_documents].
  rewrite Hjson, Hdata. cbn -[find_documents].
  fold db_name coll_name. rewrite Hdb, Hcoll. cbn -[find_documents].
  unfold get_collection, bind, lift. rewrite Hdbok, Hcollok.
  cbn -[find_documents].
  match goal with
  | |- context [find_documents w ?c (VDict kvs) ?s] =>
      rewrite (find_documents_returns w c kvs selected s Hacc)
  end.
  unfold close, bind, log_event, lift. cbn. rewrite Hclose. cbn.
  fold shard_client. now rewrite <- !app_assoc.
Qed.

(** X23.  [/sample] sends the deployment the one-stage pipeline
    [[{"$sample": {"size": size}}]], where [size] is the body's ["size"]
    as it is, undecoded, and 5 when the body has none; the answer counts
    and serializes what the deployment returns. *)
Theorem sample_pipeline
    (kvs : list (string * value)) (r : request) (st st1 : state)
    (client : conn) (results : list value) :
  let db_name := dict_get kvs "database" VNone in
  let coll_name := dict_get kvs "collection" VNone in
  let size := dict_get kvs "size" (VInt 5) in
  req_json r = Ok (VDict kvs) ->
  truthy db_name = true ->
  truthy coll_name = true ->
  get_client w MONGO_URI st = (Ok client, st1) ->
  w_database w db_name = Ok tt ->
  w_collection w db_name coll_name = Ok tt ->
  w_aggregate w (conn_uri client) db_name coll_name
    (VList [VDict [("$sample", VDict [("size", size)])]]) = Ok results ->
  fst (sample w MONGO_URI r st)
  = jsonify (VDict [("database", db_name);
                    ("collection", coll_name);
                    ("count", len results);
                    ("documents", serialize_response w (VList results))])
  /\ (dict_lookup kvs "size" = None -> size = VInt 5).
Proof.
  intros db_name coll_name size Hjson Hdb Hcoll Hclient Hdbok Hcollok Hagg.
  assert (Hdata : truthy (VDict kvs) = true).
  { destruct kvs; [discriminate Hdb|reflexivity]. }
  split.
  - unfold sample, try_except, bind, lift. rewrite Hjson, Hdata. cbn.
    fold db_name coll_name size. rewrite Hdb, Hcoll. cbn. rewrite Hclient.
    unfold get_collection, bind, lift. rewrite Hdbok, Hcollok. cbn.
    unfold aggregate_pipeline, call, bind, log_event, lift. cbn.
    now rewrite Hagg.
  - intros H. unfold size. now apply dict_get_absent.
Qed.

End OutcomeFacts.

Lemma query_failures_witness :
  query failing_find primary_uri
    (with_key (Some "k")
       (VDict [("database", VStr "d"); ("collection", VStr "c")]))
    initial_state
  = (Json 500 (error_body "operation exceeded time limit"),
     {| st_client := Some primary_client; st_next := 1;
        st_log := [EvOpen primary_client; EvCall primary_client "find"] |}).
Proof.
  refine (proj2 (query_failures failing_find primary_uri
                   [("database", VStr "d"); ("collection", VStr "c")]
                   (with_key (Some "k")
                      (VDict [("database", VStr "d"); ("collection", VStr "c")]))
                   initial_state connected primary_client
                   eq_refl eq_refl eq_refl eq_refl eq_refl eq_refl)
            (VDict []) "operation exceeded time limit" _ eq_refl).
  unfold find_well_formed. cbn.
  split; [reflexivity|]. split; [reflexivity|].
  split; [discriminate|]. split; [discriminate|].
  intros _. exists 100%Z. split; [reflexivity|unfold int64_max; lia].
Defined.

Lemma query_shard_closes_its_client_witness :
  let c :=
    {| conn_id := 1;
       conn_uri := ShardDirectory.shard_uri "5000" primary_uri
                     "rsA/a1:27018,a2:27018" |} in
  snd (query_shard five_documents primary_uri "A"
         (with_key (Some "k")
            (VDict [("database", VStr "d"); ("collection", VStr "c")]))
         initial_state)
  = {| st_client := Some primary_client;
       st_next := 2;
       st_log := [EvOpen primary_client; EvCall primary_client "find_one";
                  EvOpen c; EvCall c "find"; EvClose c] |}.
Proof.
  refine (query_shard_closes_its_client five_documents primary_uri
            [("database", VStr "d"); ("collection", VStr "c")] "A" shard_A
            (with_key (Some "k")
               (VDict [("database", VStr "d"); ("collection", VStr "c")]))
            initial_state connected primary_client
            [VDict [("n", VInt 1)]; VDict [("n", VInt 2)]; VDict [("n", VInt 3)];
             VDict [("n", VInt 4)]; VDict [("n", VInt 5)]]
            eq_refl eq_refl eq_refl eq_refl eq_refl eq_refl eq_refl eq_refl _
            eq_refl).
  exists (VDict []). cbn.
  split; [reflexivity|]. split; [reflexivity|].
  split; [discriminate|]. split; [discriminate|].
  split; [intros _; exists 100%Z; split;
          [reflexivity|unfold int64_max; lia]|reflexivity].
Defined.

Lemma sample_pipeline_witness :
  fst (sample five_documents primary_uri
         (with_key (Some "k")
            (VDict [("database", VStr "d"); ("collection", VStr "c")]))
         initial_state)
  = jsonify (VDict [("database", VStr "d");
                    ("collection", VStr "c");
                    ("count", VInt 0);
                    ("documents", VList [])]).
Proof.
  exact (proj1 (sample_pipeline five_documents primary_uri
                  [("database", VStr "d"); ("collection", VStr "c")]
                  (with_key (Some "k")
                     (VDict [("database", VStr "d"); ("collection", VStr "c")]))
                  initial_state connected primary_client []
                  eq_refl eq_refl eq_refl eq_refl eq_refl eq_refl eq_refl)).
Defined.

(** [POST /query] with a correct key. *)
Lemma caught_errors_are_json_witness :
  error_shaped
    (fst (serve five_documents primary_uri "k" Query
            (with_key (Some "k") (VList [VInt 1])) initial_state)).
Proof.
  apply (caught_errors_are_json five_documents primary_uri "k" Query).
  reflexivity.
Defined.
